(** * Synchronisation views of watermelon-django-sync

    A shallow embedding of the two Django REST views that implement the
    WatermelonDB pull/push protocol:

    - [watermelon_app/views.py]: [SyncView] over the models [Project] and
      [Task] (module [App]);
    - [watermelon_user/views.py]: [UserProfileSyncView] over [User] and
      [StudentProfile] (module [UserApp]).

    The views are stateful (they read and write database tables and read
    the clock) and fallible (Python exceptions), so they are written in a
    state-and-exception monad over an explicit database value.  Tables are
    finite maps from primary key to row.  What Django and the REST framework
    do on behalf of the views (field validation, [objects.get],
    [objects.filter], [save]) is modelled in the first part of the file. *)

From Stdlib Require Import ZArith String Ascii List Bool Lia.
From stdpp Require Import base option list relations gmap strings.

Local Open Scope Z_scope.

(** ** Request values *)

(** A value of a decoded JSON request body.  Numbers are integers (the
    payload fields of these views are identifiers, names and dates); lists
    and objects nested inside a payload are not told apart: no field of the
    four serializers accepts one. *)
Inductive json :=
  | JNull
  | JBool (b : bool)
  | JInt (n : Z)
  | JStr (s : string)
  | JCompound.

#[global] Instance json_eq_dec : EqDecision json.
Proof. solve_decision. Defined.

(** A payload is a Python [dict] with string keys. *)
Abbreviation payload := (gmap string json).

(** A primary key of [UUIDField], as the 128-bit integer of the UUID. *)
Abbreviation UUID := Z.

(** A [datetime], in microseconds since the Unix epoch. *)
Abbreviation datetime := Z.

(** [datetime.datetime.min.replace(tzinfo=utc)]: 0001-01-01T00:00:00Z. *)
Definition datetime_min : datetime := -62135596800000000.

(** [datetime.datetime.max]: 9999-12-31T23:59:59.999999. *)
Definition datetime_max : datetime := 253402300799999999.

(** ** Python text conversions used by the lookups

    Strings are sequences of code points below 256. *)
Module Py.

Definition is_space (c : ascii) : bool :=
  let n := Z.of_nat (nat_of_ascii c) in
  ((9 <=? n) && (n <=? 13)) || ((28 <=? n) && (n <=? 32))
  || (n =? 133) || (n =? 160).

(** [s.lstrip(chars)] and [s.strip(chars)] for a set of characters. *)
Fixpoint lstrip (p : ascii → bool) (s : list ascii) : list ascii :=
  match s with
  | c :: s' => if p c then lstrip p s' else s
  | [] => []
  end.

Definition strip (p : ascii → bool) (s : list ascii) : list ascii :=
  rev (lstrip p (rev (lstrip p s))).

Fixpoint startswith (pre s : list ascii) : bool :=
  match pre, s with
  | [], _ => true
  | a :: pre', b :: s' => bool_decide (a = b) && startswith pre' s'
  | _ :: _, [] => false
  end.

(** [s.replace(old, '')] for a non-empty [old]: occurrences are removed
    left to right; [skip] counts the characters of the occurrence being
    dropped. *)
Fixpoint remove_from (old : list ascii) (skip : nat) (s : list ascii)
  : list ascii :=
  match s with
  | [] => []
  | c :: s' =>
      match skip with
      | S k => remove_from old k s'
      | O => if startswith old s
             then remove_from old (Nat.pred (length old)) s'
             else c :: remove_from old O s'
      end
  end.

Definition remove (old : string) (s : list ascii) : list ascii :=
  remove_from (list_ascii_of_string old) O s.

Definition digit_value (c : ascii) : option Z :=
  let n := Z.of_nat (nat_of_ascii c) in
  if (48 <=? n) && (n <=? 57) then Some (n - 48)
  else if (97 <=? n) && (n <=? 122) then Some (n - 87)
  else if (65 <=? n) && (n <=? 90) then Some (n - 55)
  else None.

(** The digits of an integer literal: single underscores may separate
    digits. *)
Fixpoint digits (base acc : Z) (after_digit : bool) (s : list ascii)
  : option Z :=
  match s with
  | [] => if after_digit then Some acc else None
  | c :: s' =>
      if bool_decide (c = "_"%char)
      then if after_digit then digits base acc false s' else None
      else match digit_value c with
           | Some d => if d <? base
                       then digits base (acc * base + d) true s'
                       else None
           | None => None
           end
  end.

Definition unsigned (base : Z) (s : list ascii) : option Z :=
  let body :=
    if (base =? 16) && (startswith (list_ascii_of_string "0x") s
                        || startswith (list_ascii_of_string "0X") s)
    then match drop 2 s with
         | c :: s' => if bool_decide (c = "_"%char) then s' else c :: s'
         | [] => []
         end
    else s in
  digits base 0 false body.

(** [int(s, base)] for base 10 and 16; [None] stands for [ValueError]. *)
Definition int_of (base : Z) (s : list ascii) : option Z :=
  match strip is_space s with
  | c :: s' =>
      if bool_decide (c = "-"%char) then Z.opp <$> unsigned base s'
      else if bool_decide (c = "+"%char) then unsigned base s'
      else unsigned base (c :: s')
  | [] => None
  end.

Definition int (s : string) : option Z := int_of 10 (list_ascii_of_string s).

(** [uuid.UUID(hex=s).int]; [None] stands for [ValueError]. *)
Definition UUID_hex (s : string) : option UUID :=
  let hex := remove "uuid:" (remove "urn:" (list_ascii_of_string s)) in
  let braces c := bool_decide (c = "{"%char) || bool_decide (c = "}"%char) in
  let hex := remove "-" (strip braces hex) in
  if bool_decide (length hex = 32%nat) then int_of 16 hex else None.

(** [uuid.UUID(int=n).int]. *)
Definition UUID_int (n : Z) : option UUID :=
  if (0 <=? n) && (n <? 2 ^ 128) then Some n else None.

End Py.

(** [UUIDField.to_python] of Django and [UUIDField.to_internal_value] of the
    REST framework convert a non-null value the same way: an [int] (and
    [bool], a subclass of [int]) through [UUID(int=...)], a [str] through
    [UUID(hex=...)]; anything else is not a valid UUID. *)
Definition to_uuid (v : json) : option UUID :=
  match v with
  | JInt n => Py.UUID_int n
  | JBool b => Py.UUID_int (if b then 1 else 0)
  | JStr s => Py.UUID_hex s
  | JNull | JCompound => None
  end.

(** [AutoField.get_prep_value]: [int(value)]. *)
Definition to_int (v : json) : option Z :=
  match v with
  | JInt n => Some n
  | JBool b => Some (if b then 1 else 0)
  | JStr s => Py.int s
  | JNull | JCompound => None
  end.

(** ** Exceptions, the world and the monad of the views *)

Inductive exn :=
  | KeyError (key : string)
  | DoesNotExist (model : string)
  | InvalidLookup (model : string) (value : json)
  | IntegrityError (model : string)
  | ValueError (what : string).

#[global] Instance exn_eq_dec : EqDecision exn.
Proof. solve_decision. Defined.

(** The world a view runs in: the database, the clock ([time n] is the
    [n]-th reading of [timezone.now()]) and the source of random UUIDs
    ([uuid4 n] is the [n]-th draw of [uuid.uuid4()]). *)
Record World (DB : Type) := mkWorld {
  db : DB;
  time : nat → datetime;
  ticks : nat;
  uuid4 : nat → UUID;
  draws : nat
}.
Arguments mkWorld {DB}.
Arguments db {DB}.
Arguments time {DB}.
Arguments ticks {DB}.
Arguments uuid4 {DB}.
Arguments draws {DB}.

Definition with_db {DB} (d : DB) (w : World DB) : World DB :=
  mkWorld d (time w) (ticks w) (uuid4 w) (draws w).

Inductive result (A : Type) :=
  | Ok (a : A)
  | Raise (e : exn).
Arguments Ok {A}.
Arguments Raise {A}.

Definition M (DB A : Type) : Type := World DB → result A * World DB.

#[global] Instance M_ret {DB} : MRet (M DB) := λ A a w, (Ok a, w).

#[global] Instance M_bind {DB} : MBind (M DB) := λ A B f m w,
  match m w with
  | (Ok a, w') => f a w'
  | (Raise e, w') => (Raise e, w')
  end.

Section monad.
Context {DB : Type}.

Definition raise {A} (e : exn) : M DB A := λ w, (Raise e, w).

(** [try: m  except Exception as e: handler e]. *)
Definition try_except {A} (m : M DB A) (handler : exn → M DB A) : M DB A :=
  λ w, match m w with
       | (Ok a, w') => (Ok a, w')
       | (Raise e, w') => handler e w'
       end.

Definition get_db : M DB DB := λ w, (Ok (db w), w).

Definition put_db (d : DB) : M DB unit := λ w, (Ok tt, with_db d w).

(** [timezone.now()]. *)
Definition timezone_now : M DB datetime := λ w,
  (Ok (time w (ticks w)),
   mkWorld (db w) (time w) (S (ticks w)) (uuid4 w) (draws w)).

(** [uuid.uuid4()]. *)
Definition uuid_uuid4 : M DB UUID := λ w,
  (Ok (uuid4 w (draws w)),
   mkWorld (db w) (time w) (ticks w) (uuid4 w) (S (draws w))).

(** [item[key]]. *)
Definition getitem (item : payload) (key : string) : M DB json :=
  match item !! key with
  | Some v => mret v
  | None => raise (KeyError key)
  end.

(** [with transaction.atomic(): m]: the writes of a body that raises are
    rolled back, and the exception goes on. *)
Definition transaction_atomic {A} (m : M DB A) : M DB A := λ w,
  match m w with
  | (Ok a, w') => (Ok a, w')
  | (Raise e, w') => (Raise e, with_db (db w) w')
  end.

(** [for item in items: body], where [body] returns what it appended to
    the list [errors]. *)
Fixpoint for_ {A E} (items : list A) (body : A → M DB (list E))
  : M DB (list E) :=
  match items with
  | [] => mret []
  | item :: rest =>
      e ← body item;
      es ← for_ rest body;
      mret (e ++ es)
  end.

End monad.

(** ** Serializer fields of the REST framework *)

(** The outcome of running one serializer field on the incoming data: the
    field is skipped (absent and not required), yields a validated value,
    or fails with an error code (the first one, where several validators
    fail). *)
Inductive field_result (A : Type) :=
  | Skip
  | Valid (a : A)
  | Invalid (code : string).
Arguments Skip {A}.
Arguments Valid {A}.
Arguments Invalid {A}.

(** [serializer.errors]: field name and error code. *)
Abbreviation field_errors := (list (string * string)).

Definition field_error {A} (name : string) (r : field_result A) : field_errors :=
  match r with
  | Invalid code => [(name, code)]
  | _ => []
  end.

Definition field_value {A} (r : field_result A) : option A :=
  match r with
  | Valid a => Some a
  | _ => None
  end.

Definition str_strip (s : string) : string :=
  string_of_list_ascii (Py.strip Py.is_space (list_ascii_of_string s)).

Definition has_nul (s : string) : bool :=
  existsb (λ c, bool_decide (c = "000"%char)) (list_ascii_of_string s).

(** [str(n)] of an integer. *)
Definition str_of_int (n : Z) : string := pretty.pretty n.

(** [CharField(max_length=..., required=..., allow_blank=...)] with the
    default [trim_whitespace=True] and [allow_null=False]; booleans and
    compound values are not strings, integers are converted with [str]. *)
Definition CharField (max_length : option nat) (required allow_blank : bool)
    (partial : bool) (data : option json) : field_result string :=
  let text (s : string) :=
    let s := str_strip s in
    if bool_decide (s = EmptyString)
    then if allow_blank then Valid EmptyString else Invalid "blank"
    else if has_nul s then Invalid "null_characters_not_allowed"
    else match max_length with
         | Some n => if (n <? String.length s)%nat then Invalid "max_length"
                     else Valid s
         | None => Valid s
         end in
  match data with
  | None => if required && negb partial then Invalid "required" else Skip
  | Some JNull => Invalid "null"
  | Some (JStr s) => text s
  | Some (JInt n) => text (str_of_int n)
  | Some (JBool _) | Some JCompound => Invalid "invalid"
  end.

(** A primary-key [UUIDField(required=False)] with its [UniqueValidator]:
    [taken u] tells whether a row other than the serializer's instance has
    the key [u]. *)
Definition UUIDField_pk (taken : UUID → bool) (data : option json)
  : field_result UUID :=
  match data with
  | None => Skip
  | Some JNull => Invalid "null"
  | Some v =>
      match to_uuid v with
      | None => Invalid "invalid"
      | Some u => if taken u then Invalid "unique" else Valid u
      end
  end.

(** [PrimaryKeyRelatedField(queryset=..., allow_null=..., required=...)]:
    [find v] is [queryset.get(pk=v)], giving the key of the row found,
    [None] when the value cannot be a key, [Some None] when no row has
    it.  An empty string counts as null. *)
Definition PrimaryKeyRelatedField {K} (find : json → option (option K))
    (required allow_null : bool) (partial : bool) (data : option json)
  : field_result (option K) :=
  match data with
  | None => if required && negb partial then Invalid "required" else Skip
  | Some JNull | Some (JStr EmptyString) =>
      if allow_null then Valid None else Invalid "null"
  | Some (JBool _) => Invalid "incorrect_type"
  | Some v =>
      match find v with
      | None => Invalid "incorrect_type"
      | Some None => Invalid "does_not_exist"
      | Some (Some k) => Valid (Some k)
      end
  end.

(** A value of a serialized record. *)
Inductive repr :=
  | RNull
  | RInt (n : Z)
  | RUuid (u : UUID)
  | RStr (s : string)
  | RDateTime (t : datetime).

(** A serialized record: field names and values, in the order of
    [Meta.fields]. *)
Abbreviation record := (list (string * repr)).

Definition keys (r : record) : list string := r.*1.

(** The changes of one collection, as a pull returns them. *)
Record Changes := mkChanges {
  created : list record;
  updated : list record;
  deleted : list Z
}.

(** The changes of one collection, as a push carries them:
    [changes.get(key, [])] of an absent key is the empty list. *)
Record ChangeSet := mkChangeSet {
  cs_created : list payload;
  cs_updated : list payload;
  cs_deleted : list json
}.

(** [{'changes': {...}, 'timestamp': ...}]. *)
Record PullResponse := mkPull {
  changes : list (string * Changes);
  timestamp : Z
}.

(** ** Querysets *)

(** [ordering = ['created_at']]: rows come out of a queryset by increasing
    [created_at].  Rows with the same [created_at] keep the order of the
    table scan. *)
Section order_by.
Context {A : Type} (key : A → Z).

Fixpoint insert_by (x : A) (l : list A) : list A :=
  match l with
  | [] => [x]
  | y :: l' => if key x <? key y then x :: l else y :: insert_by x l'
  end.

Fixpoint order_by (l : list A) : list A :=
  match l with
  | [] => []
  | x :: l' => insert_by x (order_by l')
  end.
End order_by.

(** The three timestamp columns every model of the repository declares:
    [created_at] ([auto_now_add]), [updated_at] ([auto_now]) and the
    nullable [deleted_at] of the soft deletes. *)
Record Stamps := mkStamps {
  created_at : datetime;
  updated_at : datetime;
  deleted_at : option datetime
}.

(** The three queries of a pull, for the cursor [last_pulled_at]:
    [created_at__gt=..., deleted_at__isnull=True], then
    [updated_at__gt=..., created_at__lte=..., deleted_at__isnull=True], then
    [deleted_at__gt=...] (which a null [deleted_at] does not pass). *)
Definition is_created (last_pulled_at : datetime) (s : Stamps) : bool :=
  (last_pulled_at <? created_at s) && bool_decide (deleted_at s = None).

Definition is_updated (last_pulled_at : datetime) (s : Stamps) : bool :=
  (last_pulled_at <? updated_at s) && (created_at s <=? last_pulled_at)
  && bool_decide (deleted_at s = None).

Definition is_deleted (last_pulled_at : datetime) (s : Stamps) : bool :=
  match deleted_at s with
  | Some t => last_pulled_at <? t
  | None => false
  end.

(** [queryset.filter(...)] on a table, with [Meta.ordering]: the rows that
    pass, with their keys. *)
Definition filter_table {R} (stamps : R → Stamps) (p : Stamps → bool)
    (table : gmap Z R) : list (Z * R) :=
  order_by (λ x, created_at (stamps x.2))
    (filter (λ x, p (stamps x.2) = true) (map_to_list table)).

(** The three lists a view builds for one collection: the serialized rows
    of the first two queries and the keys ([values_list('id', flat=True)])
    of the third. *)
Definition changes_of {R} (stamps : R → Stamps) (serialize : Z * R → record)
    (last_pulled_at : datetime) (table : gmap Z R) : Changes :=
  mkChanges
    (serialize <$> filter_table stamps (is_created last_pulled_at) table)
    (serialize <$> filter_table stamps (is_updated last_pulled_at) table)
    ((filter_table stamps (is_deleted last_pulled_at) table).*1).

(** The messages appended to [errors], by the f-string that builds them;
    the arguments are the values interpolated. *)
Inductive ApplyError :=
  | CreationFailed (model : string) (id : json) (errors : field_errors)
  | FailedToSet (field owner : string) (id : json) (e : exn)
  | UnexpectedError (owner : string) (id : json) (e : exn)
  | UpdateFailed (model : string) (id : json) (errors : field_errors)
  | NotExist (model : string) (id : json)
  | UnexpectedUpdating (model : string) (id : json) (e : exn)
  | UnexpectedDeleting (model : string) (id : json) (e : exn).

(** The two responses of a push. *)
Inductive Response :=
  | HTTP_200_OK
  | HTTP_400_BAD_REQUEST (errors : list ApplyError).

(** [datetime.fromtimestamp(int(s) / 1000, tz=utc)]: the milliseconds are
    taken as exact (the float division is not modelled); a text that is not
    an integer and a time outside the range of [datetime] raise. *)
Definition parse_last_pulled_at {DB} (s : string) : M DB datetime :=
  match Py.int s with
  | None => raise (ValueError "int")
  | Some ms =>
      let t := ms * 1000 in
      if (datetime_min <=? t) && (t <=? datetime_max) then mret t
      else raise (ValueError "fromtimestamp")
  end.

(** The cursor of a pull: [last_pulled_at_str] is the query parameter,
    [None] when absent; an absent or empty one gives the earliest time. *)
Definition cursor_of {DB} (last_pulled_at_str : option string)
  : M DB datetime :=
  match last_pulled_at_str with
  | None | Some EmptyString => mret datetime_min
  | Some s => parse_last_pulled_at s
  end.

(** * [watermelon_app]: projects and tasks *)
Module App.

(** ** [models.py] *)

(** The two model classes.  The views pass them around as values
    ([_apply_deleted(ids, model)]), and so does the embedding. *)
Inductive Model := Project | Task.

#[global] Instance Model_eq_dec : EqDecision Model.
Proof. solve_decision. Defined.

Definition __name__ (model : Model) : string :=
  match model with Project => "Project" | Task => "Task" end.

(** The two models have the same shape: a [UUIDField] primary key [id], a
    [CharField] ([Project.name], [Task.title]), a nullable [ForeignKey] to
    the other model ([Project.lead_task], [Task.project]) and the three
    timestamps.  A table maps the primary key to the other columns:
    [char_value] is [name] or [title], [fk_id] is [lead_task_id] or
    [project_id]. *)
Record Row := mkRow {
  char_value : string;
  fk_id : option UUID;
  stamps : Stamps
}.

Definition char_field (model : Model) : string :=
  match model with Project => "name" | Task => "title" end.

Definition char_max_length (model : Model) : nat :=
  match model with Project => 100%nat | Task => 200%nat end.

Definition fk_field (model : Model) : string :=
  match model with Project => "lead_task" | Task => "project" end.

Definition fk_target (model : Model) : Model :=
  match model with Project => Task | Task => Project end.

Record DB := mkDB {
  projects : gmap UUID Row;
  tasks : gmap UUID Row
}.

(** [model.objects]: the table of a model. *)
Definition objects (model : Model) (d : DB) : gmap UUID Row :=
  match model with Project => projects d | Task => tasks d end.

Definition set_objects (model : Model) (t : gmap UUID Row) (d : DB) : DB :=
  match model with
  | Project => mkDB t (tasks d)
  | Task => mkDB (projects d) t
  end.

(** A model instance in memory: its class, primary key and fields. *)
Record Instance := mkInstance {
  model_of : Model;
  pk : UUID;
  fields : Row
}.

Definition set_char (s : string) (r : Row) : Row :=
  mkRow s (fk_id r) (stamps r).
Definition set_fk (k : option UUID) (r : Row) : Row :=
  mkRow (char_value r) k (stamps r).
Definition set_updated_at (t : datetime) (r : Row) : Row :=
  mkRow (char_value r) (fk_id r)
    (mkStamps (created_at (stamps r)) t (deleted_at (stamps r))).
Definition set_deleted_at (t : option datetime) (r : Row) : Row :=
  mkRow (char_value r) (fk_id r)
    (mkStamps (created_at (stamps r)) (updated_at (stamps r)) t).

Definition with_fields (f : Row → Row) (obj : Instance) : Instance :=
  mkInstance (model_of obj) (pk obj) (f (fields obj)).

(** [model.objects.get(id=value)].  A lookup by [None] is an [IS NULL]
    test, which no primary key passes; a value that is not a UUID raises
    before the table is read. *)
Definition objects_get (model : Model) (value : json) : M DB Instance :=
  match value with
  | JNull => raise (DoesNotExist (__name__ model))
  | _ =>
      match to_uuid value with
      | None => raise (InvalidLookup (__name__ model) value)
      | Some u =>
          d ← get_db;
          match objects model d !! u with
          | Some r => mret (mkInstance model u r)
          | None => raise (DoesNotExist (__name__ model))
          end
      end
  end.

(** [obj.save()] of an instance read from the table: [auto_now] refreshes
    [updated_at], and the row of the instance's own table is written. *)
Definition save (obj : Instance) : M DB unit :=
  now ← timezone_now;
  d ← get_db;
  put_db (set_objects (model_of obj)
            (<[pk obj := set_updated_at now (fields obj)]>
               (objects (model_of obj) d)) d).

(** ** [serializers.py] *)

Inductive SerializerClass := ProjectSerializer | TaskSerializer.

Definition Meta_model (serializer_class : SerializerClass) : Model :=
  match serializer_class with
  | ProjectSerializer => Project
  | TaskSerializer => Task
  end.

(** [serializer.validated_data]: the writable fields of [Meta.fields] that
    the data carried.  [created_at] and [updated_at] are read-only (not
    editable on the model), and [deleted_at] is not a serializer field. *)
Record validated := mkValidated {
  v_id : option UUID;
  v_char : option string;
  v_fk : option (option UUID)
}.

(** The fields of [serializer_class(instance, data=data,
    partial=partial)] run on the data, with the tables [d] for the
    queries of the validators: [inl] carries [serializer.errors], [inr]
    the validated data. *)
Definition run_validation (serializer_class : SerializerClass)
    (instance : option Instance) (data : payload) (partial : bool)
    (d : DB) : field_errors + validated :=
  let model := Meta_model serializer_class in
  let taken u :=
    match objects model d !! u with
    | Some _ => negb (bool_decide (pk <$> instance = Some u))
    | None => false
    end in
  let find v :=
    (λ u, match objects (fk_target model) d !! u with
          | Some _ => Some u
          | None => None
          end) <$> to_uuid v in
  let id := UUIDField_pk taken (data !! "id") in
  let char := CharField (Some (char_max_length model)) true false partial
                (data !! char_field model) in
  let fk := PrimaryKeyRelatedField find false true partial
              (data !! fk_field model) in
  let errors := field_error "id" id ++ field_error (char_field model) char
                ++ field_error (fk_field model) fk in
  match errors with
  | [] => inr (mkValidated (field_value id) (field_value char)
                 (field_value fk))
  | _ => inl errors
  end.

(** [serializer.is_valid()]. *)
Definition is_valid (serializer_class : SerializerClass)
    (instance : option Instance) (data : payload) (partial : bool)
  : M DB (field_errors + validated) :=
  d ← get_db;
  mret (run_validation serializer_class instance data partial d).

(** [model.objects.create] on the validated data: the key defaults to
    [uuid.uuid4()], [auto_now_add] and [auto_now] read the clock, and the
    row is inserted; a key already in the table violates the primary key
    constraint. *)
Definition objects_create (model : Model) (data : validated)
  : M DB Instance :=
  id ← match v_id data with Some u => mret u | None => uuid_uuid4 end;
  created ← timezone_now;
  updated ← timezone_now;
  d ← get_db;
  let row := mkRow (default EmptyString (v_char data))
               (default None (v_fk data))
               (mkStamps created updated None) in
  match objects model d !! id with
  | Some _ => raise (IntegrityError (__name__ model))
  | None =>
      _ ← put_db (set_objects model (<[id := row]> (objects model d)) d);
      mret (mkInstance model id row)
  end.

(** [serializer.save()]: without an instance the record is created; with
    one, every validated field is set on it and the instance is saved.
    (The views only ever pair a serializer with an instance of its own
    model; on another instance the field names of the serializer would
    not be columns.) *)
Definition serializer_save (serializer_class : SerializerClass)
    (instance : option Instance) (data : validated) : M DB Instance :=
  match instance with
  | None => objects_create (Meta_model serializer_class) data
  | Some obj =>
      let row := fields obj in
      let row :=
        if bool_decide (Meta_model serializer_class = model_of obj)
        then
          let row := match v_char data with
                     | Some s => set_char s row
                     | None => row
                     end in
          match v_fk data with
          | Some k => set_fk k row
          | None => row
          end
        else row in
      let obj := mkInstance (model_of obj) (default (pk obj) (v_id data))
                   row in
      _ ← save obj;
      mret obj
  end.

(** [serializer_class(obj).data]. *)
Definition to_representation (serializer_class : SerializerClass)
    (obj : UUID * Row) : record :=
  let model := Meta_model serializer_class in
  [("id", RUuid obj.1);
   (char_field model, RStr (char_value obj.2));
   (fk_field model, from_option RUuid RNull (fk_id obj.2));
   ("created_at", RDateTime (created_at (stamps obj.2)));
   ("updated_at", RDateTime (updated_at (stamps obj.2)))].

(** ** [views.py]: [SyncView] *)

(** The lower-case word for a model in the messages of the linkage
    steps. *)
Definition noun (model : Model) : string :=
  match model with Project => "project" | Task => "task" end.

Definition serializer_of (model : Model) : SerializerClass :=
  match model with
  | Project => ProjectSerializer
  | Task => TaskSerializer
  end.

(** Steps 1 and 2 of [_apply_changes] are the same loop, over the
    projects with [lead_task] left out and over the tasks with [project]
    left out. *)
Definition create_without_fk (model : Model) (items : list payload)
  : M DB (list ApplyError) :=
  for_ items (λ item,
    let item_data := delete (fk_field model) item in
    valid ← is_valid (serializer_of model) None item_data false;
    match valid with
    | inr data =>
        _ ← serializer_save (serializer_of model) None data;
        mret []
    | inl errors =>
        mret [CreationFailed (__name__ model)
                (default (JStr "unknown") (item !! "id")) errors]
    end).

(** Steps 3 and 4 are the same loop too: the foreign key of every created
    item that carries one is set from the two records looked up. *)
Definition update_foreign_keys (model : Model) (items : list payload)
  : M DB (list ApplyError) :=
  for_ items (λ item,
    match item !! fk_field model with
    | None => mret []
    | Some _ =>
        try_except
          (id ← getitem item "id";
           owner ← objects_get model id;
           ref ← getitem item (fk_field model);
           target ← objects_get (fk_target model) ref;
           _ ← save (with_fields (set_fk (Some (pk target))) owner);
           mret [])
          (λ e,
             match e with
             | DoesNotExist _ =>
                 id ← getitem item "id";
                 mret [FailedToSet (fk_field model) (noun model) id e]
             | _ =>
                 id ← getitem item "id";
                 mret [UnexpectedError (noun model) id e]
             end)
    end).

Definition _apply_updated (items : list payload)
    (serializer_class : SerializerClass) (fk_field : string)
  : M DB (list ApplyError) :=
  for_ items (λ item,
    let model :=
      if bool_decide (fk_field = "lead_task") then Project else Task in
    try_except
      (id ← getitem item "id";
       obj ← objects_get model id;
       valid ← is_valid serializer_class (Some obj) item true;
       match valid with
       | inr data =>
           _ ← serializer_save serializer_class (Some obj) data;
           mret []
       | inl errors =>
           id ← getitem item "id";
           mret [UpdateFailed (__name__ model) id errors]
       end)
      (λ e,
         if bool_decide (e = DoesNotExist (__name__ model))
         then
           id ← getitem item "id";
           mret [NotExist (__name__ model) id]
         else
           id ← getitem item "id";
           mret [UnexpectedUpdating (__name__ model) id e])).

Definition _apply_deleted (ids : list json) (model : Model)
  : M DB (list ApplyError) :=
  for_ ids (λ id,
    try_except
      (obj ← objects_get model id;
       now ← timezone_now;
       _ ← save (with_fields (set_deleted_at (Some now)) obj);
       mret [])
      (λ e,
         if bool_decide (e = DoesNotExist (__name__ model))
         then mret [NotExist (__name__ model) id]
         else mret [UnexpectedDeleting (__name__ model) id e])).

Definition _apply_changes (projects_changes tasks_changes : ChangeSet)
  : M DB (list ApplyError) :=
  let project_items := cs_created projects_changes in
  let task_items := cs_created tasks_changes in
  (* Step 1: create projects without lead_task *)
  e1 ← create_without_fk Project project_items;
  (* Step 2: create tasks without project *)
  e2 ← create_without_fk Task task_items;
  (* Step 3: foreign keys of the projects, after all creations *)
  e3 ← update_foreign_keys Project project_items;
  (* Step 4: foreign keys of the tasks, after all creations *)
  e4 ← update_foreign_keys Task task_items;
  (* Step 5: updates and deletions *)
  e5 ← _apply_updated (cs_updated projects_changes) ProjectSerializer
         "lead_task";
  e6 ← _apply_updated (cs_updated tasks_changes) TaskSerializer "project";
  e7 ← _apply_deleted (cs_deleted projects_changes) Project;
  e8 ← _apply_deleted (cs_deleted tasks_changes) Task;
  mret (e1 ++ e2 ++ e3 ++ e4 ++ e5 ++ e6 ++ e7 ++ e8).

(** [SyncView.post]: [projects_changes] and [tasks_changes] are the two
    entries of [request.data['changes']], empty when absent.  An
    exception that leaves [post] is the framework's to report. *)
Definition post (projects_changes tasks_changes : ChangeSet)
  : M DB Response :=
  errors ← transaction_atomic
             (_apply_changes projects_changes tasks_changes);
  match errors with
  | [] => mret HTTP_200_OK
  | _ => mret (HTTP_400_BAD_REQUEST errors)
  end.

Definition collection (model : Model) (last_pulled_at : datetime) (d : DB)
  : Changes :=
  changes_of stamps (to_representation (serializer_of model))
    last_pulled_at (objects model d).

(** [SyncView.get]: [last_pulled_at_str] is the query parameter, [None]
    when absent. *)
Definition get (last_pulled_at_str : option string) : M DB PullResponse :=
  last_pulled_at ← cursor_of last_pulled_at_str;
  d ← get_db;
  let changes := [("projects", collection Project last_pulled_at d);
                  ("tasks", collection Task last_pulled_at d)] in
  now ← timezone_now;
  let current_timestamp := now `quot` 1000 in
  mret (mkPull changes current_timestamp).

End App.

(** * [watermelon_user]: users and student profiles *)

(** What the serializer fields of this application take from Django and is
    not modelled further: the pattern of [UnicodeUsernameValidator], the
    patterns of [EmailValidator], and the conversion of a date text by
    [DateTimeField] ([None] when the text is no date). *)
Record FieldLibrary := mkFieldLibrary {
  UnicodeUsernameValidator : string → bool;
  EmailValidator : string → bool;
  parse_datetime : string → option datetime
}.

Module UserApp.

(** ** [models.py] *)

Inductive Model := User | StudentProfile.

#[global] Instance Model_eq_dec : EqDecision Model.
Proof. solve_decision. Defined.

Definition __name__ (model : Model) : string :=
  match model with User => "User" | StudentProfile => "StudentProfile" end.

(** [User(AbstractUser)]: the key is the integer [id] of [AbstractUser].
    Of the columns inherited from [AbstractUser] the table keeps [password]
    and the four that [UserSerializer] lists ([last_login], [is_superuser],
    [is_staff], [is_active] and [date_joined] are never read or written by
    the views); [uuid] and the three timestamps are the model's own. *)
Record UserRow := mkUser {
  password : string;
  username : string;
  first_name : string;
  last_name : string;
  email : string;
  uuid : UUID;
  user_stamps : Stamps
}.

Record ProfileRow := mkProfile {
  user_id : Z;
  bio : string;
  profile_stamps : Stamps
}.

(** [user_id_seq] is the sequence that numbers new users. *)
Record DB := mkDB {
  users : gmap Z UserRow;
  user_id_seq : Z;
  student_profiles : gmap UUID ProfileRow
}.

(** A model instance in memory. *)
Inductive Instance :=
  | UserObj (pk : Z) (fields : UserRow)
  | ProfileObj (pk : UUID) (fields : ProfileRow).

Definition pk (obj : Instance) : Z :=
  match obj with UserObj k _ | ProfileObj k _ => k end.

Definition obj_stamps (obj : Instance) : Stamps :=
  match obj with
  | UserObj _ u => user_stamps u
  | ProfileObj _ p => profile_stamps p
  end.

Definition set_stamps (s : Stamps) (obj : Instance) : Instance :=
  match obj with
  | UserObj k u =>
      UserObj k (mkUser (password u) (username u) (first_name u)
                   (last_name u) (email u) (uuid u) s)
  | ProfileObj k p => ProfileObj k (mkProfile (user_id p) (bio p) s)
  end.

Definition set_updated_at (t : datetime) (obj : Instance) : Instance :=
  let s := obj_stamps obj in
  set_stamps (mkStamps (created_at s) t (deleted_at s)) obj.

Definition set_deleted_at (t : option datetime) (obj : Instance)
  : Instance :=
  let s := obj_stamps obj in
  set_stamps (mkStamps (created_at s) (updated_at s) t) obj.

(** [profile.user = user]. *)
Definition set_user (user : Z) (obj : Instance) : Instance :=
  match obj with
  | ProfileObj k p => ProfileObj k (mkProfile user (bio p) (profile_stamps p))
  | UserObj _ _ => obj
  end.

(** [model_class.objects.get(id=value)]: the key of a user is an
    integer, the key of a profile a UUID. *)
Definition objects_get (model : Model) (value : json) : M DB Instance :=
  match value with
  | JNull => raise (DoesNotExist (__name__ model))
  | _ =>
      match model with
      | User =>
          match to_int value with
          | None => raise (InvalidLookup (__name__ model) value)
          | Some n =>
              d ← get_db;
              match users d !! n with
              | Some u => mret (UserObj n u)
              | None => raise (DoesNotExist (__name__ model))
              end
          end
      | StudentProfile =>
          match to_uuid value with
          | None => raise (InvalidLookup (__name__ model) value)
          | Some k =>
              d ← get_db;
              match student_profiles d !! k with
              | Some p => mret (ProfileObj k p)
              | None => raise (DoesNotExist (__name__ model))
              end
          end
      end
  end.

(** [obj.save()] of an instance read from its table. *)
Definition save (obj : Instance) : M DB unit :=
  now ← timezone_now;
  d ← get_db;
  match set_updated_at now obj with
  | UserObj k u =>
      put_db (mkDB (<[k := u]> (users d)) (user_id_seq d)
                (student_profiles d))
  | ProfileObj k p =>
      put_db (mkDB (users d) (user_id_seq d)
                (<[k := p]> (student_profiles d)))
  end.

(** ** [serializers.py] *)

Inductive SerializerClass := UserSerializer | StudentProfileSerializer.

Definition Meta_model (serializer_class : SerializerClass) : Model :=
  match serializer_class with
  | UserSerializer => User
  | StudentProfileSerializer => StudentProfile
  end.

(** [serializer.validated_data]: the writable fields of the two
    [Meta.fields] lists that the data carried.  Both lists name
    [deleted_at], an editable column, so both serializers accept it;
    [User.id] is an [AutoField] and read-only, [created_at] and
    [updated_at] are read-only. *)
Record validated := mkValidated {
  v_id : option UUID;
  v_username : option string;
  v_email : option string;
  v_first_name : option string;
  v_last_name : option string;
  v_user : option Z;
  v_bio : option string;
  v_deleted_at : option (option datetime)
}.

Section views.
Context (lib : FieldLibrary).

(** [DateTimeField(required=False, allow_null=True)]. *)
Definition DateTimeField (data : option json)
  : field_result (option datetime) :=
  match data with
  | None => Skip
  | Some JNull => Valid None
  | Some (JStr s) =>
      match parse_datetime lib s with
      | Some t => Valid (Some t)
      | None => Invalid "invalid"
      end
  | Some _ => Invalid "invalid"
  end.

(** A further validator on the value of a field. *)
Definition and_then {A} (r : field_result A) (check : A → option string)
  : field_result A :=
  match r with
  | Valid a => match check a with
               | Some code => Invalid code
               | None => Valid a
               end
  | _ => r
  end.

(** The fields of a serializer run on the data, with the tables [d]
    for the queries of the validators. *)
Definition run_validation (serializer_class : SerializerClass)
    (instance : option Instance) (data : payload) (partial : bool)
    (d : DB) : field_errors + validated :=
  match serializer_class with
  | UserSerializer =>
      let taken (s : string) :=
        existsb (λ x : Z * UserRow,
                   bool_decide (username x.2 = s)
                   && negb (bool_decide (pk <$> instance = Some x.1)))
          (map_to_list (users d)) in
      let username :=
        and_then (CharField (Some 150%nat) true false partial
                    (data !! "username"))
          (λ s, if negb (UnicodeUsernameValidator lib s)
                then Some "invalid"
                else if taken s then Some "unique" else None) in
      let email :=
        and_then (CharField (Some 254%nat) false true partial
                    (data !! "email"))
          (λ s, if bool_decide (s = EmptyString) || EmailValidator lib s
                then None else Some "invalid") in
      let first_name := CharField (Some 150%nat) false true partial
                          (data !! "first_name") in
      let last_name := CharField (Some 150%nat) false true partial
                         (data !! "last_name") in
      let deleted_at := DateTimeField (data !! "deleted_at") in
      let errors :=
        field_error "username" username ++ field_error "email" email
        ++ field_error "first_name" first_name
        ++ field_error "last_name" last_name
        ++ field_error "deleted_at" deleted_at in
      match errors with
      | [] => inr (mkValidated None (field_value username)
                     (field_value email) (field_value first_name)
                     (field_value last_name) None None
                     (field_value deleted_at))
      | _ => inl errors
      end
  | StudentProfileSerializer =>
      let taken u :=
        match student_profiles d !! u with
        | Some _ => negb (bool_decide (pk <$> instance = Some u))
        | None => false
        end in
      let find v :=
        (λ n, match users d !! n with
              | Some _ => Some n
              | None => None
              end) <$> to_int v in
      let id := UUIDField_pk taken (data !! "id") in
      let user := PrimaryKeyRelatedField find true false partial
                    (data !! "user") in
      let bio := CharField None true false partial (data !! "bio") in
      let deleted_at := DateTimeField (data !! "deleted_at") in
      let errors :=
        field_error "id" id ++ field_error "user" user
        ++ field_error "bio" bio
        ++ field_error "deleted_at" deleted_at in
      match errors with
      | [] => inr (mkValidated (field_value id) None None None None
                     (mjoin (field_value user)) (field_value bio)
                     (field_value deleted_at))
      | _ => inl errors
      end
  end.

(** [serializer.is_valid()]. *)
Definition is_valid (serializer_class : SerializerClass)
    (instance : option Instance) (data : payload) (partial : bool)
  : M DB (field_errors + validated) :=
  d ← get_db;
  mret (run_validation serializer_class instance data partial d).

(** [model.objects.create] on the validated data.  A user gets the next
    number of the sequence, an empty [password] and a random [uuid]
    (a unique column); a profile gets its key from the data or from
    [uuid.uuid4()]. *)
Definition objects_create (model : Model) (data : validated)
  : M DB Instance :=
  match model with
  | User =>
      uuid ← uuid_uuid4;
      created ← timezone_now;
      updated ← timezone_now;
      d ← get_db;
      let id := user_id_seq d + 1 in
      let row := mkUser EmptyString
                   (default EmptyString (v_username data))
                   (default EmptyString (v_first_name data))
                   (default EmptyString (v_last_name data))
                   (default EmptyString (v_email data)) uuid
                   (mkStamps created updated
                      (default None (v_deleted_at data))) in
      if bool_decide (is_Some (users d !! id))
         || existsb (λ x : Z * UserRow, bool_decide (UserApp.uuid x.2 = uuid))
              (map_to_list (users d))
      then raise (IntegrityError (__name__ model))
      else
        _ ← put_db (mkDB (<[id := row]> (users d)) id
                      (student_profiles d));
        mret (UserObj id row)
  | StudentProfile =>
      id ← match v_id data with Some u => mret u | None => uuid_uuid4 end;
      created ← timezone_now;
      updated ← timezone_now;
      d ← get_db;
      match v_user data with
      | None => raise (IntegrityError (__name__ model))
      | Some user =>
          let row := mkProfile user (default EmptyString (v_bio data))
                       (mkStamps created updated
                          (default None (v_deleted_at data))) in
          match student_profiles d !! id with
          | Some _ => raise (IntegrityError (__name__ model))
          | None =>
              _ ← put_db (mkDB (users d) (user_id_seq d)
                            (<[id := row]> (student_profiles d)));
              mret (ProfileObj id row)
          end
      end
  end.

(** [serializer.update]: every validated field is set on the
    instance. *)
Definition update (serializer_class : SerializerClass) (obj : Instance)
    (data : validated) : Instance :=
  match serializer_class, obj with
  | UserSerializer, UserObj k u =>
      let s := user_stamps u in
      UserObj k
        (mkUser (password u)
           (default (username u) (v_username data))
           (default (first_name u) (v_first_name data))
           (default (last_name u) (v_last_name data))
           (default (email u) (v_email data))
           (uuid u)
           (mkStamps (created_at s) (updated_at s)
              (default (deleted_at s) (v_deleted_at data))))
  | StudentProfileSerializer, ProfileObj k p =>
      let s := profile_stamps p in
      ProfileObj (default k (v_id data))
        (mkProfile (default (user_id p) (v_user data))
           (default (bio p) (v_bio data))
           (mkStamps (created_at s) (updated_at s)
              (default (deleted_at s) (v_deleted_at data))))
  | _, _ => obj
  end.

(** [serializer.save()]. *)
Definition serializer_save (serializer_class : SerializerClass)
    (instance : option Instance) (data : validated) : M DB Instance :=
  match instance with
  | None => objects_create (Meta_model serializer_class) data
  | Some obj =>
      let obj := update serializer_class obj data in
      _ ← save obj;
      mret obj
  end.

(** [serializer_class(obj).data], in the order of [Meta.fields]. *)
Definition to_representation (obj : Instance) : record :=
  let s := obj_stamps obj in
  match obj with
  | UserObj k u =>
      [("id", RInt k); ("username", RStr (username u));
       ("email", RStr (email u)); ("first_name", RStr (first_name u));
       ("last_name", RStr (last_name u));
       ("created_at", RDateTime (created_at s));
       ("updated_at", RDateTime (updated_at s));
       ("deleted_at", from_option RDateTime RNull (deleted_at s))]
  | ProfileObj k p =>
      [("id", RUuid k); ("user", RInt (user_id p)); ("bio", RStr (bio p));
       ("created_at", RDateTime (created_at s));
       ("updated_at", RDateTime (updated_at s));
       ("deleted_at", from_option RDateTime RNull (deleted_at s))]
  end.

(** ** [views.py]: [UserProfileSyncView] *)

Definition users_changes (last_pulled_at : datetime) (d : DB)
  : Changes :=
  changes_of user_stamps (λ x, to_representation (UserObj x.1 x.2))
    last_pulled_at (users d).

Definition profiles_changes (last_pulled_at : datetime) (d : DB)
  : Changes :=
  changes_of profile_stamps (λ x, to_representation (ProfileObj x.1 x.2))
    last_pulled_at (student_profiles d).

Definition get (last_pulled_at_str : option string)
  : M DB PullResponse :=
  last_pulled_at ← cursor_of last_pulled_at_str;
  d ← get_db;
  let changes :=
    [("users", users_changes last_pulled_at d);
     ("student_profiles", profiles_changes last_pulled_at d)] in
  now ← timezone_now;
  let current_timestamp := now `quot` 1000 in
  mret (mkPull changes current_timestamp).

Definition _apply_updates (items : list payload)
    (serializer_class : SerializerClass) (model_class : Model)
  : M DB (list ApplyError) :=
  for_ items (λ item,
    try_except
      (id ← getitem item "id";
       obj ← objects_get model_class id;
       valid ← is_valid serializer_class (Some obj) item true;
       match valid with
       | inr data =>
           _ ← serializer_save serializer_class (Some obj) data;
           mret []
       | inl errors =>
           id ← getitem item "id";
           mret [UpdateFailed (__name__ model_class) id errors]
       end)
      (λ e,
         mret [UnexpectedUpdating (__name__ model_class)
                 (default JNull (item !! "id")) e])).

Definition _apply_deletions (ids : list json) (model_class : Model)
  : M DB (list ApplyError) :=
  for_ ids (λ record_id,
    try_except
      (obj ← objects_get model_class record_id;
       now ← timezone_now;
       _ ← save (set_deleted_at (Some now) obj);
       mret [])
      (λ e,
         mret [UnexpectedDeleting (__name__ model_class) record_id e])).

Definition _apply_changes (user_changes profile_changes : ChangeSet)
  : M DB (list ApplyError) :=
  let user_items := cs_created user_changes in
  let profile_items := cs_created profile_changes in
  (* Phase 1: create User records *)
  e1 ← for_ user_items (λ item,
         valid ← is_valid UserSerializer None item false;
         match valid with
         | inr data =>
             _ ← serializer_save UserSerializer None data;
             mret []
         | inl errors =>
             mret [CreationFailed "User"
                     (default (JStr "unknown") (item !! "id")) errors]
         end);
  (* Phase 2: create StudentProfile records without the user *)
  e2 ← for_ profile_items (λ item,
         let item_data := delete "user" item in
         valid ← is_valid StudentProfileSerializer None item_data false;
         match valid with
         | inr data =>
             _ ← serializer_save StudentProfileSerializer None data;
             mret []
         | inl errors =>
             mret [CreationFailed "StudentProfile"
                     (default (JStr "unknown") (item !! "id")) errors]
         end);
  (* Phase 3: set the user foreign key of the profiles *)
  e3 ← for_ profile_items (λ item,
         match item !! "user" with
         | None => mret []
         | Some _ =>
             try_except
               (id ← getitem item "id";
                profile ← objects_get StudentProfile id;
                ref ← getitem item "user";
                user ← objects_get User ref;
                _ ← save (set_user (pk user) profile);
                mret [])
               (λ e,
                  match e with
                  | DoesNotExist _ =>
                      id ← getitem item "id";
                      mret [FailedToSet "user" "student profile" id e]
                  | _ =>
                      id ← getitem item "id";
                      mret [UnexpectedError "student profile" id e]
                  end)
         end);
  e4 ← _apply_updates (cs_updated user_changes) UserSerializer User;
  e5 ← _apply_updates (cs_updated profile_changes)
         StudentProfileSerializer StudentProfile;
  e6 ← _apply_deletions (cs_deleted user_changes) User;
  e7 ← _apply_deletions (cs_deleted profile_changes) StudentProfile;
  mret (e1 ++ e2 ++ e3 ++ e4 ++ e5 ++ e6 ++ e7).

(** [UserProfileSyncView.post]. *)
Definition post (user_changes profile_changes : ChangeSet)
  : M DB Response :=
  errors ← transaction_atomic
             (_apply_changes user_changes profile_changes);
  match errors with
  | [] => mret HTTP_200_OK
  | _ => mret (HTTP_400_BAD_REQUEST errors)
  end.

End views.

End UserApp.

(** * The vocabulary of the properties *)

(** The value of a field of a serialized record. *)
Fixpoint field (name : string) (r : record) : option repr :=
  match r with
  | [] => None
  | (n, v) :: r' => if bool_decide (n = name) then Some v else field name r'
  end.

(** The primary key a serialized record carries in its [id] field. *)
Definition record_key (r : record) : option Z :=
  match field "id" r with
  | Some (RUuid k) | Some (RInt k) => Some k
  | _ => None
  end.

Definition created_ids (ch : Changes) : list Z := omap record_key (created ch).
Definition updated_ids (ch : Changes) : list Z := omap record_key (updated ch).

(** No key is in two of the three lists of a collection. *)
Definition exclusive (ch : Changes) : Prop :=
  ∀ k, ¬ (k ∈ created_ids ch ∧ k ∈ updated_ids ch)
       ∧ ¬ (k ∈ created_ids ch ∧ k ∈ deleted ch)
       ∧ ¬ (k ∈ updated_ids ch ∧ k ∈ deleted ch).

(** The three lists of a collection hold the rows of [table] that the
    three conditions on the cursor [c] select. *)
Definition classified {R} (stamps : R → Stamps) (c : datetime)
    (table : gmap Z R) (ch : Changes) : Prop :=
  ∀ k,
    (k ∈ created_ids ch
     ↔ ∃ r, table !! k = Some r ∧ c < created_at (stamps r)
            ∧ deleted_at (stamps r) = None)
    ∧ (k ∈ updated_ids ch
       ↔ ∃ r, table !! k = Some r ∧ c < updated_at (stamps r)
              ∧ created_at (stamps r) ≤ c ∧ deleted_at (stamps r) = None)
    ∧ (k ∈ deleted ch
       ↔ ∃ r t, table !! k = Some r ∧ deleted_at (stamps r) = Some t
                ∧ c < t).

(** Every time stored in the table is later than [datetime.min], as every
    reading of the clock is. *)
Definition after_min {R} (stamps : R → Stamps) (table : gmap Z R) : Prop :=
  ∀ k r, table !! k = Some r →
    datetime_min < created_at (stamps r)
    ∧ ∀ t, deleted_at (stamps r) = Some t → datetime_min < t.

(** A full snapshot of [table]: every live row serialized in [created],
    the key of every tombstoned row in [deleted], nothing in [updated]. *)
Definition snapshot {R} (stamps : R → Stamps) (serialize : Z * R → record)
    (table : gmap Z R) (ch : Changes) : Prop :=
  updated ch = []
  ∧ (∀ rec, rec ∈ created ch
            ↔ ∃ k r, table !! k = Some r ∧ deleted_at (stamps r) = None
                     ∧ rec = serialize (k, r))
  ∧ (∀ k, k ∈ deleted ch
          ↔ ∃ r, table !! k = Some r ∧ deleted_at (stamps r) ≠ None).

(** A view [m] keeps the relation [R] between the database it starts from
    and the database it leaves, however it ends. *)
Definition preserves {DB A} (R : relation DB) (m : M DB A) : Prop :=
  ∀ w, R (db w) (db (m w).2).

(** The writes of [SyncView] on its tables: a fresh row without
    [deleted_at] is inserted, or a stored row is replaced by one with the
    same [created_at] that has a [deleted_at] if the stored one had. *)
Inductive App_write : relation App.DB :=
  | write_insert model k row d :
      App.objects model d !! k = None →
      deleted_at (App.stamps row) = None →
      App_write d (App.set_objects model (<[k := row]> (App.objects model d)) d)
  | write_replace model k row row' d :
      App.objects model d !! k = Some row →
      created_at (App.stamps row') = created_at (App.stamps row) →
      (is_Some (deleted_at (App.stamps row)) →
       is_Some (deleted_at (App.stamps row'))) →
      App_write d (App.set_objects model (<[k := row']> (App.objects model d)) d).

(** Every row of [d] with a [deleted_at] is still in [d'], with a
    [deleted_at]. *)
Definition tombstones_kept (d d' : App.DB) : Prop :=
  ∀ model k row,
    App.objects model d !! k = Some row →
    is_Some (deleted_at (App.stamps row)) →
    ∃ row', App.objects model d' !! k = Some row'
            ∧ is_Some (deleted_at (App.stamps row')).

(** Every row of [d] is still in [d']. *)
Definition rows_kept (d d' : App.DB) : Prop :=
  ∀ model k, is_Some (App.objects model d !! k) →
             is_Some (App.objects model d' !! k).

(** Steps 1 to 4 of [SyncView._apply_changes] with the two collections
    taken in either order, in the creation steps and in the linkage steps:
    [false] is the order of the source (projects first), [true] the
    other. *)
Definition apply_created_in_order (tasks_first_creation
    tasks_first_linkage : bool) (project_items task_items : list payload)
  : M App.DB (list ApplyError) :=
  e12 ← (if tasks_first_creation
         then
           e2 ← App.create_without_fk App.Task task_items;
           e1 ← App.create_without_fk App.Project project_items;
           mret (e1 ++ e2)
         else
           e1 ← App.create_without_fk App.Project project_items;
           e2 ← App.create_without_fk App.Task task_items;
           mret (e1 ++ e2));
  e34 ← (if tasks_first_linkage
         then
           e4 ← App.update_foreign_keys App.Task task_items;
           e3 ← App.update_foreign_keys App.Project project_items;
           mret (e3 ++ e4)
         else
           e3 ← App.update_foreign_keys App.Project project_items;
           e4 ← App.update_foreign_keys App.Task task_items;
           mret (e3 ++ e4));
  mret (e12 ++ e34).

(** The project [pu] and the task [tu] are stored, live, under the names
    given, and each refers to the other. *)
Definition linked (d : App.DB) (pu tu : UUID) (name title : string) : Prop :=
  ∃ prow trow,
    App.projects d !! pu = Some prow ∧ App.tasks d !! tu = Some trow
    ∧ App.fk_id prow = Some tu ∧ App.fk_id trow = Some pu
    ∧ App.char_value prow = name ∧ App.char_value trow = title
    ∧ deleted_at (App.stamps prow) = None
    ∧ deleted_at (App.stamps trow) = None.

(** The error that the deletion of [id] appends when no row of the model
    has that key: [NotExist] when [id] is a key, [UnexpectedDeleting] when
    it cannot be one. *)
Definition missing_error (model : App.Model) (id : json) : ApplyError :=
  if bool_decide (id = JNull) then NotExist (App.__name__ model) id
  else match to_uuid id with
       | Some _ => NotExist (App.__name__ model) id
       | None =>
           UnexpectedDeleting (App.__name__ model) id
             (InvalidLookup (App.__name__ model) id)
       end.

(** The same for the tables of [UserProfileSyncView]. *)
Definition user_tombstones_kept (d d' : UserApp.DB) : Prop :=
  (∀ k u,
     UserApp.users d !! k = Some u →
     is_Some (deleted_at (UserApp.user_stamps u)) →
     ∃ u', UserApp.users d' !! k = Some u'
           ∧ is_Some (deleted_at (UserApp.user_stamps u')))
  ∧ (∀ k p,
       UserApp.student_profiles d !! k = Some p →
       is_Some (deleted_at (UserApp.profile_stamps p)) →
       ∃ p', UserApp.student_profiles d' !! k = Some p'
             ∧ is_Some (deleted_at (UserApp.profile_stamps p'))).

(** The instance is the row stored under its key. *)
Definition stored (obj : UserApp.Instance) (d : UserApp.DB) : Prop :=
  match obj with
  | UserApp.UserObj k u => UserApp.users d !! k = Some u
  | UserApp.ProfileObj k p => UserApp.student_profiles d !! k = Some p
  end.

(** Two instances of the same model with the same key. *)
Definition same_slot (obj obj' : UserApp.Instance) : Prop :=
  match obj, obj' with
  | UserApp.UserObj k _, UserApp.UserObj k' _
  | UserApp.ProfileObj k _, UserApp.ProfileObj k' _ => k = k'
  | _, _ => False
  end.

(** * Sample worlds and payloads *)

(** A clock that reads 1000, 1001, ... microseconds and a source of UUIDs
    that draws 7777, 7778, ... *)
Definition sample_time (n : nat) : datetime := 1000 + Z.of_nat n.
Definition sample_uuid4 (n : nat) : UUID := 7777 + Z.of_nat n.

Definition world_of {DB} (d : DB) : World DB :=
  mkWorld d sample_time 0 sample_uuid4 0.

(** The text of three UUIDs, whose integers are 1, 2 and 9. *)
Definition id1 : json := JStr "00000000-0000-0000-0000-000000000001".
Definition id2 : json := JStr "00000000-0000-0000-0000-000000000002".
Definition id9 : json := JStr "00000000-0000-0000-0000-000000000009".

(** An empty database. *)
Definition no_rows : App.DB := App.mkDB ∅ ∅.

(** A database with a live project (created at 10 ms, updated at 20 ms),
    a project soft-deleted at 30 ms and a live task created at 12 ms. *)
Definition some_rows : App.DB :=
  App.mkDB
    {[ 1 := App.mkRow "live" (Some 3) (mkStamps 10000 20000 None);
       2 := App.mkRow "gone" None (mkStamps 10000 30000 (Some 30000)) ]}
    {[ 3 := App.mkRow "task" (Some 1) (mkStamps 12000 12000 None) ]}.

(** A project table whose only project was soft-deleted at time 30. *)
Definition one_deleted_project : App.DB :=
  App.mkDB {[ 1 := App.mkRow "old" None (mkStamps 10 30 (Some 30)) ]} ∅.

(** [{"id": "...0001", "name": "new"}]. *)
Definition rename_project : payload :=
  {[ "id" := id1; "name" := JStr "new" ]}.

(** [{"id": "...0001", "name": "y", "lead_task": "...0002"}] and
    [{"id": "...0002", "title": "x", "project": "...0001"}]. *)
Definition sample_project : payload :=
  {[ "id" := id1; "name" := JStr "y"; "lead_task" := id2 ]}.
Definition sample_task : payload :=
  {[ "id" := id2; "title" := JStr "x"; "project" := id1 ]}.

(** [{"id": "...0001", "name": "y", "lead_task": null}]. *)
Definition project_with_null : payload :=
  {[ "id" := id1; "name" := JStr "y"; "lead_task" := JNull ]}.

(** [{"name": "y", "lead_task": "...0002"}]: a created project without
    [id]. *)
Definition project_without_id : payload :=
  {[ "name" := JStr "y"; "lead_task" := id2 ]}.

(** A user table with one live user. *)
Definition one_user : UserApp.DB :=
  UserApp.mkDB
    {[ 1 := UserApp.mkUser "" "ann" "" "" "" 7000 (mkStamps 10 20 None) ]}
    1 ∅.

(** A user table whose only user was soft-deleted at time 30. *)
Definition one_deleted_user : UserApp.DB :=
  UserApp.mkDB
    {[ 1 := UserApp.mkUser "" "ann" "" "" "" 7000
              (mkStamps 10 30 (Some 30)) ]}
    1 ∅.

(** [{"id": 1, "deleted_at": null}]. *)
Definition undelete_user : payload :=
  {[ "id" := JInt 1; "deleted_at" := JNull ]}.

(** A library of field validators that accepts every user name and e-mail
    address and no date text. *)
Definition permissive : FieldLibrary :=
  mkFieldLibrary (λ _, true) (λ _, true) (λ _, None).

(** [{"id": 1, "first_name": "Ann"}]. *)
Definition rename_user : payload :=
  {[ "id" := JInt 1; "first_name" := JStr "Ann" ]}.

(** A library of field validators that, of the date texts, reads the one
    of [datetime.min]. *)
Definition reads_datetime_min : FieldLibrary :=
  mkFieldLibrary (λ _, true) (λ _, true)
    (λ s, if bool_decide (s = "0001-01-01T00:00:00Z")
          then Some datetime_min else None).

(** [{"id": 1, "deleted_at": "0001-01-01T00:00:00Z"}]. *)
Definition delete_user_at_min : payload :=
  {[ "id" := JInt 1; "deleted_at" := JStr "0001-01-01T00:00:00Z" ]}.

(** * Properties *)

(** ** The text conversions on examples *)

Example UUID_hex_canonical :
  Py.UUID_hex "00000000-0000-0000-0000-0000000000a1" = Some 161.
Proof. reflexivity. Qed.

Example UUID_hex_urn :
  Py.UUID_hex "urn:uuid:{00000000-0000-0000-0000-0000000000A1}" = Some 161.
Proof. reflexivity. Qed.

Example UUID_hex_short : Py.UUID_hex "Z9" = None.
Proof. reflexivity. Qed.

Example int_examples :
  Py.int "1698771234567" = Some 1698771234567 ∧ Py.int " -12 " = Some (-12)
  ∧ Py.int "1_000" = Some 1000 ∧ Py.int "abc" = None ∧ Py.int "" = None.
Proof. repeat split; reflexivity. Qed.

(** ** Querysets *)

Section order_by_facts.
Context {A : Type} (key : A → Z).

Lemma elem_of_insert_by x y l : y ∈ insert_by key x l ↔ y = x ∨ y ∈ l.
Proof.
  induction l as [|z l IH]; simpl.
  - rewrite list_elem_of_singleton, elem_of_nil. tauto.
  - destruct (key x <? key z).
    + rewrite !elem_of_cons. tauto.
    + rewrite !elem_of_cons, IH. tauto.
Qed.

Lemma elem_of_order_by y l : y ∈ order_by key l ↔ y ∈ l.
Proof.
  induction l as [|x l IH]; simpl; [done|].
  rewrite elem_of_insert_by, elem_of_cons, IH. tauto.
Qed.
End order_by_facts.

Lemma elem_of_filter_table {R} (stamps : R → Stamps) p (table : gmap Z R) k r :
  (k, r) ∈ filter_table stamps p table
  ↔ table !! k = Some r ∧ p (stamps r) = true.
Proof.
  unfold filter_table.
  rewrite elem_of_order_by, list_elem_of_filter, elem_of_map_to_list.
  simpl. tauto.
Qed.

Lemma is_created_spec c s :
  is_created c s = true ↔ c < created_at s ∧ deleted_at s = None.
Proof.
  unfold is_created.
  rewrite andb_true_iff, Z.ltb_lt, bool_decide_eq_true. tauto.
Qed.

Lemma is_updated_spec c s :
  is_updated c s = true
  ↔ c < updated_at s ∧ created_at s ≤ c ∧ deleted_at s = None.
Proof.
  unfold is_updated.
  rewrite !andb_true_iff, Z.ltb_lt, Z.leb_le, bool_decide_eq_true. tauto.
Qed.

Lemma is_deleted_spec c s :
  is_deleted c s = true ↔ ∃ t, deleted_at s = Some t ∧ c < t.
Proof.
  unfold is_deleted. destruct (deleted_at s) as [t|].
  - rewrite Z.ltb_lt. split; [eauto|]. by intros (t' & [= <-] & ?).
  - split; [done|]. by intros (t' & ? & _).
Qed.

(** The three conditions of a pull exclude one another. *)
Lemma pull_conditions_disjoint c s :
  ¬ (is_created c s = true ∧ is_updated c s = true)
  ∧ ¬ (is_created c s = true ∧ is_deleted c s = true)
  ∧ ¬ (is_updated c s = true ∧ is_deleted c s = true).
Proof.
  rewrite is_created_spec, is_updated_spec, is_deleted_spec.
  repeat split; intros [H1 H2].
  - lia.
  - destruct H2 as (t & ? & _), H1 as [_ ?]. congruence.
  - destruct H2 as (t & ? & _), H1 as (_ & _ & ?). congruence.
Qed.

Section changes_of_facts.
Context {R : Type} (stamps : R → Stamps) (serialize : Z * R → record).
Context (serialize_key : ∀ x, record_key (serialize x) = Some x.1).

Lemma elem_of_ids p (table : gmap Z R) k :
  k ∈ omap record_key (serialize <$> filter_table stamps p table)
  ↔ ∃ r, table !! k = Some r ∧ p (stamps r) = true.
Proof using serialize_key.
  rewrite list_elem_of_omap. split.
  - intros (rec & Hin & Hk). apply list_elem_of_fmap in Hin as ([k' r] & -> & Hin).
    rewrite serialize_key in Hk. injection Hk as <-.
    apply elem_of_filter_table in Hin. eauto.
  - intros (r & Hk & Hp). exists (serialize (k, r)). split.
    + apply list_elem_of_fmap_2. by apply elem_of_filter_table.
    + by rewrite serialize_key.
Qed.

Lemma elem_of_keys p (table : gmap Z R) k :
  k ∈ (filter_table stamps p table).*1
  ↔ ∃ r, table !! k = Some r ∧ p (stamps r) = true.
Proof.
  rewrite list_elem_of_fmap. split.
  - intros ([k' r] & -> & Hin). apply elem_of_filter_table in Hin. eauto.
  - intros (r & Hk & Hp). exists (k, r). split; [done|].
    by apply elem_of_filter_table.
Qed.

Lemma changes_of_classified c table :
  classified stamps c table (changes_of stamps serialize c table).
Proof using serialize_key.
  intros k. unfold created_ids, updated_ids, changes_of. simpl.
  rewrite !elem_of_ids, elem_of_keys. repeat split.
  - intros (r & ? & ?%is_created_spec). eauto.
  - intros (r & ? & ?). exists r. by rewrite is_created_spec.
  - intros (r & ? & ?%is_updated_spec). eauto.
  - intros (r & ? & ?). exists r. by rewrite is_updated_spec.
  - intros (r & ? & (t & ? & ?)%is_deleted_spec). eauto.
  - intros (r & t & ? & ? & ?). exists r. rewrite is_deleted_spec. eauto.
Qed.

Lemma changes_of_exclusive c table :
  exclusive (changes_of stamps serialize c table).
Proof using serialize_key.
  intros k. unfold created_ids, updated_ids, changes_of. simpl.
  rewrite !elem_of_ids, elem_of_keys.
  repeat split; intros [(r1 & Hr1 & H1) (r2 & Hr2 & H2)];
    assert (r2 = r1) as -> by congruence;
    destruct (pull_conditions_disjoint c (stamps r1)) as (? & ? & ?); tauto.
Qed.

Lemma changes_of_snapshot table :
  after_min stamps table →
  snapshot stamps serialize table
    (changes_of stamps serialize datetime_min table).
Proof.
  intros Hmin. unfold snapshot, changes_of. simpl. repeat split.
  - destruct (filter_table stamps (is_updated datetime_min) table)
      as [|[k r] l] eqn:E; [done|].
    assert ((k, r) ∈ filter_table stamps (is_updated datetime_min) table)
      as Hin by (rewrite E; left).
    apply elem_of_filter_table in Hin as [Hk Hu%is_updated_spec].
    apply Hmin in Hk. lia.
  - intros Hin. apply list_elem_of_fmap in Hin as ([k r] & -> & Hin).
    apply elem_of_filter_table in Hin as [Hk Hc%is_created_spec].
    exists k, r. tauto.
  - intros (k & r & Hk & Hd & ->). apply list_elem_of_fmap_2.
    apply elem_of_filter_table. split; [done|].
    apply is_created_spec. split; [|done]. by destruct (Hmin k r Hk).
  - intros (r & Hk & (t & Ht & _)%is_deleted_spec)%elem_of_keys.
    exists r. split; [done|]. congruence.
  - intros (r & Hk & Hd). apply elem_of_keys. exists r. split; [done|].
    apply is_deleted_spec.
    destruct (deleted_at (stamps r)) as [t|] eqn:Ht; [|done].
    exists t. split; [done|]. destruct (Hmin k r Hk) as [_ H]. by apply H.
Qed.
End changes_of_facts.

(** ** Pull *)

Lemma cursor_of_world {DB} q (w : World DB) : (cursor_of q w).2 = w.
Proof.
  destruct q as [[|a s]|]; try done.
  unfold cursor_of, parse_last_pulled_at.
  destruct (Py.int _); [|done].
  by destruct (_ && _).
Qed.

Lemma cursor_of_None {DB} (w : World DB) : cursor_of None w = (Ok datetime_min, w).
Proof. done. Qed.

Lemma App_get_unfold q w :
  App.get q w =
  match cursor_of q w with
  | (Ok c, w1) =>
      (Ok (mkPull [("projects", App.collection App.Project c (db w1));
                   ("tasks", App.collection App.Task c (db w1))]
             (time w1 (ticks w1) `quot` 1000)),
       mkWorld (db w1) (time w1) (S (ticks w1)) (uuid4 w1) (draws w1))
  | (Raise e, w1) => (Raise e, w1)
  end.
Proof.
  unfold App.get, mbind, M_bind. by destruct (cursor_of q w) as [[c|e] w1].
Qed.

Lemma UserApp_get_unfold q w :
  UserApp.get q w =
  match cursor_of q w with
  | (Ok c, w1) =>
      (Ok (mkPull [("users", UserApp.users_changes c (db w1));
                   ("student_profiles", UserApp.profiles_changes c (db w1))]
             (time w1 (ticks w1) `quot` 1000)),
       mkWorld (db w1) (time w1) (S (ticks w1)) (uuid4 w1) (draws w1))
  | (Raise e, w1) => (Raise e, w1)
  end.
Proof.
  unfold UserApp.get, mbind, M_bind. by destruct (cursor_of q w) as [[c|e] w1].
Qed.

Lemma App_record_key sc x : record_key (App.to_representation sc x) = Some x.1.
Proof. done. Qed.

Lemma UserApp_record_key_user (x : Z * UserApp.UserRow) :
  record_key (UserApp.to_representation (UserApp.UserObj x.1 x.2)) = Some x.1.
Proof. done. Qed.

Lemma UserApp_record_key_profile (x : Z * UserApp.ProfileRow) :
  record_key (UserApp.to_representation (UserApp.ProfileObj x.1 x.2))
  = Some x.1.
Proof. done. Qed.

(** C5.  Whatever the cursor and the tables, the lists [created], [updated]
    and [deleted] that a pull returns for a collection hold the rows with
    [created_at > cursor] and no [deleted_at], the rows with
    [updated_at > cursor], [created_at <= cursor] and no [deleted_at], and
    the rows with [deleted_at > cursor]; the three conditions exclude one
    another, so no record is in two of the lists.  This holds for the four
    collections of the two views. *)
Theorem pull_buckets_exclusive :
  (∀ c s, ¬ (is_created c s = true ∧ is_updated c s = true)
          ∧ ¬ (is_created c s = true ∧ is_deleted c s = true)
          ∧ ¬ (is_updated c s = true ∧ is_deleted c s = true))
  ∧ (∀ q w resp w', App.get q w = (Ok resp, w') →
       ∃ c projects tasks,
         cursor_of q w = (Ok c, w)
         ∧ changes resp = [("projects", projects); ("tasks", tasks)]
         ∧ classified App.stamps c (App.projects (db w)) projects
         ∧ exclusive projects
         ∧ classified App.stamps c (App.tasks (db w)) tasks
         ∧ exclusive tasks)
  ∧ (∀ q w resp w', UserApp.get q w = (Ok resp, w') →
       ∃ c users profiles,
         cursor_of q w = (Ok c, w)
         ∧ changes resp = [("users", users); ("student_profiles", profiles)]
         ∧ classified UserApp.user_stamps c (UserApp.users (db w)) users
         ∧ exclusive users
         ∧ classified UserApp.profile_stamps c
             (UserApp.student_profiles (db w)) profiles
         ∧ exclusive profiles).
Proof.
  split; [apply pull_conditions_disjoint|]. split.
  - intros q w resp w'. rewrite App_get_unfold.
    pose proof (cursor_of_world q w) as Hw.
    destruct (cursor_of q w) as [[c|e] w1]; [|done]. simpl in Hw. subst w1.
    intros [= <- <-]. exists c; do 2 eexists. split; [done|].
    split; [done|]. unfold App.collection.
    repeat split;
      first [ apply changes_of_classified | apply changes_of_exclusive ];
      apply App_record_key.
  - intros q w resp w'. rewrite UserApp_get_unfold.
    pose proof (cursor_of_world q w) as Hw.
    destruct (cursor_of q w) as [[c|e] w1]; [|done]. simpl in Hw. subst w1.
    intros [= <- <-]. exists c; do 2 eexists. split; [done|].
    split; [done|]. unfold UserApp.users_changes, UserApp.profiles_changes.
    repeat split;
      first [ apply changes_of_classified | apply changes_of_exclusive ];
      first [ apply UserApp_record_key_user | apply UserApp_record_key_profile ].
Qed.

(** A pull of [some_rows] with the cursor at 15 ms: project 1 is in
    [updated], project 2 in [deleted], and the task, unchanged since
    12 ms, in no list. *)
Example pull_some_rows :
  (App.get (Some "15") (world_of some_rows)).1
  = Ok (mkPull
          [("projects",
            mkChanges []
              [[("id", RUuid 1); ("name", RStr "live");
                ("lead_task", RUuid 3); ("created_at", RDateTime 10000);
                ("updated_at", RDateTime 20000)]]
              [2]);
           ("tasks", mkChanges [] [] [])]
          1).
Proof. reflexivity. Qed.

(** [pull_buckets_exclusive] on that pull. *)
Lemma pull_buckets_exclusive_witness :
  ∃ c projects tasks,
    cursor_of (Some "15") (world_of some_rows)
    = (Ok c, world_of some_rows)
    ∧ classified App.stamps c (App.projects some_rows) projects
    ∧ exclusive projects
    ∧ classified App.stamps c (App.tasks some_rows) tasks
    ∧ exclusive tasks.
Proof.
  destruct (proj1 (proj2 pull_buckets_exclusive) (Some "15")
              (world_of some_rows) _ _ eq_refl)
    as (c & projects & tasks & Hc & Hch & Hrest).
  by exists c, projects, tasks.
Defined.

(** What [UserProfileSyncView] does with [delete_user_at_min]: the update is
    accepted, and the user is soft-deleted at [datetime.min]. *)
Lemma post_delete_user_at_min :
  let r := UserApp.post reads_datetime_min
             (mkChangeSet [] [delete_user_at_min] []) (mkChangeSet [] [] [])
             (world_of one_user) in
  r.1 = Ok HTTP_200_OK
  ∧ UserApp.users (db r.2) !! 1
    = Some (UserApp.mkUser "" "ann" "" "" "" 7000
              (mkStamps 10 1000 (Some datetime_min))).
Proof. split; reflexivity. Qed.

(** C6, as stated, fails: the cursor of a pull without [last_pulled_at] is
    [datetime.min] and the three queries compare with it strictly, so a row
    stamped [datetime.min] itself is in no list.  A push of
    [UserProfileSyncView] leads to such a state: after the update
    [delete_user_at_min] the user has a [deleted_at], and the pull does not
    list its key in [deleted]. *)
Lemma pull_without_cursor_misses_datetime_min :
  ¬ (∀ w : World UserApp.DB,
       ∃ resp w' users profiles,
         UserApp.get None w = (Ok resp, w')
         ∧ changes resp = [("users", users); ("student_profiles", profiles)]
         ∧ snapshot UserApp.user_stamps
             (λ x, UserApp.to_representation (UserApp.UserObj x.1 x.2))
             (UserApp.users (db w)) users
         ∧ snapshot UserApp.profile_stamps
             (λ x, UserApp.to_representation (UserApp.ProfileObj x.1 x.2))
             (UserApp.student_profiles (db w)) profiles).
Proof.
  intros H.
  destruct (H (UserApp.post reads_datetime_min
                 (mkChangeSet [] [delete_user_at_min] [])
                 (mkChangeSet [] [] []) (world_of one_user)).2)
    as (resp & w' & users & profiles & Hget & Hch & (_ & _ & Hdeleted) & _).
  destruct post_delete_user_at_min as [_ Hrow]. cbv zeta in Hrow.
  assert (1 ∈ deleted users) as Hin.
  { apply Hdeleted. eexists. split; [exact Hrow|]. done. }
  rewrite UserApp_get_unfold, cursor_of_None in Hget.
  injection Hget as <- _. simpl in Hch. injection Hch as <- _.
  vm_compute in Hin. by apply elem_of_nil in Hin.
Qed.

(** C6, amended.  A pull without a cursor succeeds and returns, for each
    collection, every row without [deleted_at] serialized in [created], the
    key of every row with a [deleted_at] in [deleted], and an empty
    [updated], provided that the [created_at] of every stored row, and its
    [deleted_at] if it has one, is later than [datetime.min]. *)
Theorem pull_without_cursor_is_snapshot :
  (∀ w, after_min App.stamps (App.projects (db w)) →
        after_min App.stamps (App.tasks (db w)) →
     ∃ resp w' projects tasks,
       App.get None w = (Ok resp, w')
       ∧ changes resp = [("projects", projects); ("tasks", tasks)]
       ∧ snapshot App.stamps (App.to_representation App.ProjectSerializer)
           (App.projects (db w)) projects
       ∧ snapshot App.stamps (App.to_representation App.TaskSerializer)
           (App.tasks (db w)) tasks)
  ∧ (∀ w, after_min UserApp.user_stamps (UserApp.users (db w)) →
        after_min UserApp.profile_stamps (UserApp.student_profiles (db w)) →
     ∃ resp w' users profiles,
       UserApp.get None w = (Ok resp, w')
       ∧ changes resp = [("users", users); ("student_profiles", profiles)]
       ∧ snapshot UserApp.user_stamps
           (λ x, UserApp.to_representation (UserApp.UserObj x.1 x.2))
           (UserApp.users (db w)) users
       ∧ snapshot UserApp.profile_stamps
           (λ x, UserApp.to_representation (UserApp.ProfileObj x.1 x.2))
           (UserApp.student_profiles (db w)) profiles).
Proof.
  split.
  - intros w Hp Ht. rewrite App_get_unfold, cursor_of_None.
    do 4 eexists. split; [done|]. split; [done|].
    split; by apply changes_of_snapshot.
  - intros w Hu Hp. rewrite UserApp_get_unfold, cursor_of_None.
    do 4 eexists. split; [done|]. split; [done|].
    split; by apply changes_of_snapshot.
Qed.

(** A test that decides [after_min] on a given table. *)
Lemma after_min_test {R} (stamps : R → Stamps) (table : gmap Z R) :
  forallb (λ x : Z * R,
             (datetime_min <? created_at (stamps x.2))
             && match deleted_at (stamps x.2) with
                | Some t => datetime_min <? t
                | None => true
                end) (map_to_list table) = true →
  after_min stamps table.
Proof.
  intros Hall k r Hk. rewrite forallb_forall in Hall.
  apply elem_of_map_to_list, list_elem_of_In, Hall in Hk. simpl in Hk.
  apply andb_true_iff in Hk as [Hc Hd]. split; [by apply Z.ltb_lt|].
  intros t Ht. rewrite Ht in Hd. by apply Z.ltb_lt.
Qed.

Lemma some_rows_after_min :
  after_min App.stamps (App.projects some_rows)
  ∧ after_min App.stamps (App.tasks some_rows).
Proof. split; by apply after_min_test. Qed.

(** [pull_without_cursor_is_snapshot] on [some_rows]. *)
Lemma pull_without_cursor_is_snapshot_witness :
  ∃ resp w' projects tasks,
    App.get None (world_of some_rows) = (Ok resp, w')
    ∧ changes resp = [("projects", projects); ("tasks", tasks)]
    ∧ snapshot App.stamps (App.to_representation App.ProjectSerializer)
        (App.projects some_rows) projects
    ∧ snapshot App.stamps (App.to_representation App.TaskSerializer)
        (App.tasks some_rows) tasks.
Proof.
  apply (proj1 pull_without_cursor_is_snapshot (world_of some_rows));
    apply some_rows_after_min.
Defined.

(** C9.  A pull, whatever its cursor and however it ends, leaves every
    table as it was; the views keep nothing else between calls (the world
    of a view is the database, the clock and the source of UUIDs). *)
Theorem pull_leaves_store_unchanged :
  (∀ q w, db (App.get q w).2 = db w)
  ∧ (∀ q w, db (UserApp.get q w).2 = db w).
Proof.
  split.
  - intros q w. rewrite App_get_unfold.
    pose proof (cursor_of_world q w) as Hw.
    destruct (cursor_of q w) as [[c|e] w1]; simpl in *; by subst.
  - intros q w. rewrite UserApp_get_unfold.
    pose proof (cursor_of_world q w) as Hw.
    destruct (cursor_of q w) as [[c|e] w1]; simpl in *; by subst.
Qed.

Lemma changes_of_live {R} (stamps : R → Stamps) serialize c
    (table : gmap Z R) rec :
  let ch := changes_of stamps serialize c table in
  rec ∈ created ch ++ updated ch →
  ∃ k r, table !! k = Some r ∧ deleted_at (stamps r) = None
         ∧ rec = serialize (k, r).
Proof.
  simpl. rewrite elem_of_app, !list_elem_of_fmap.
  intros [([k r] & -> & Hin)|([k r] & -> & Hin)];
    apply elem_of_filter_table in Hin as [Hk Hp]; exists k, r.
  - apply is_created_spec in Hp. tauto.
  - apply is_updated_spec in Hp. tauto.
Qed.

(** C8, as stated, fails on the users: the records of a pull of
    [UserProfileSyncView] carry a [deleted_at] field. *)
Lemma pull_user_record_has_deleted_at :
  ¬ (∀ q w resp w' name ch rec,
       UserApp.get q w = (Ok resp, w') →
       (name, ch) ∈ changes resp →
       rec ∈ created ch ++ updated ch →
       "deleted_at" ∉ keys rec).
Proof.
  intros H.
  pose proof (UserApp_get_unfold None (world_of one_user)) as Hget.
  rewrite cursor_of_None in Hget.
  apply (H _ _ _ _ "users" (UserApp.users_changes datetime_min one_user)
           [("id", RInt 1); ("username", RStr "ann"); ("email", RStr "");
            ("first_name", RStr ""); ("last_name", RStr "");
            ("created_at", RDateTime 10); ("updated_at", RDateTime 20);
            ("deleted_at", RNull)] Hget).
  - left.
  - vm_compute. left.
  - vm_compute. repeat constructor.
Qed.

(** C8, amended.  Every record in [created] or [updated] of a pull is the
    serialization of a stored row without [deleted_at].  For a project or
    a task it has the fields [id], [name] or [title], [lead_task] or
    [project], [created_at] and [updated_at]: every column of the model but
    [deleted_at].  For a user or a student profile it has the fields of
    [Meta.fields], which end with a [deleted_at] that is null there (and,
    for a user, leave out columns such as [password] and [uuid]).  The
    rows with a [deleted_at] are returned as keys only, in [deleted]. *)
Theorem pull_record_fields :
  (∀ q w resp w' name ch rec,
     App.get q w = (Ok resp, w') →
     (name, ch) ∈ changes resp →
     rec ∈ created ch ++ updated ch →
     ∃ model k r,
       App.objects model (db w) !! k = Some r
       ∧ deleted_at (App.stamps r) = None
       ∧ rec = App.to_representation (App.serializer_of model) (k, r)
       ∧ keys rec = ["id"; App.char_field model; App.fk_field model;
                     "created_at"; "updated_at"])
  ∧ (∀ q w resp w' name ch rec,
       UserApp.get q w = (Ok resp, w') →
       (name, ch) ∈ changes resp →
       rec ∈ created ch ++ updated ch →
       field "deleted_at" rec = Some RNull
       ∧ ((∃ k u,
             UserApp.users (db w) !! k = Some u
             ∧ deleted_at (UserApp.user_stamps u) = None
             ∧ rec = UserApp.to_representation (UserApp.UserObj k u)
             ∧ keys rec = ["id"; "username"; "email"; "first_name";
                           "last_name"; "created_at"; "updated_at";
                           "deleted_at"])
          ∨ (∃ k p,
               UserApp.student_profiles (db w) !! k = Some p
               ∧ deleted_at (UserApp.profile_stamps p) = None
               ∧ rec = UserApp.to_representation (UserApp.ProfileObj k p)
               ∧ keys rec = ["id"; "user"; "bio"; "created_at";
                             "updated_at"; "deleted_at"]))).
Proof.
  split.
  - intros q w resp w' name ch rec. rewrite App_get_unfold.
    pose proof (cursor_of_world q w) as Hw.
    destruct (cursor_of q w) as [[c|e] w1]; [|done]. simpl in Hw. subst w1.
    intros [= <- <-]. simpl.
    rewrite !elem_of_cons, elem_of_nil.
    intros [[= -> ->]|[[= -> ->]|[]]] Hrec;
      apply changes_of_live in Hrec as (k & r & Hk & Hd & ->);
      [exists App.Project | exists App.Task]; exists k, r; done.
  - intros q w resp w' name ch rec. rewrite UserApp_get_unfold.
    pose proof (cursor_of_world q w) as Hw.
    destruct (cursor_of q w) as [[c|e] w1]; [|done]. simpl in Hw. subst w1.
    intros [= <- <-]. simpl.
    rewrite !elem_of_cons, elem_of_nil.
    intros [[= -> ->]|[[= -> ->]|[]]] Hrec;
      apply changes_of_live in Hrec as (k & r & Hk & Hd & ->); simpl.
    + rewrite Hd. split; [done|]. left. exists k, r. by rewrite Hd.
    + rewrite Hd. split; [done|]. right. exists k, r. by rewrite Hd.
Qed.

(** [pull_record_fields] on the first record of a pull of [some_rows]
    without cursor. *)
Lemma pull_record_fields_witness :
  ∃ model k r,
    App.objects model some_rows !! k = Some r
    ∧ deleted_at (App.stamps r) = None
    ∧ [("id", RUuid 1); ("name", RStr "live"); ("lead_task", RUuid 3);
       ("created_at", RDateTime 10000); ("updated_at", RDateTime 20000)]
      = App.to_representation (App.serializer_of model) (k, r).
Proof.
  destruct (proj1 pull_record_fields None (world_of some_rows) _ _ "projects"
              (App.collection App.Project datetime_min some_rows)
              [("id", RUuid 1); ("name", RStr "live"); ("lead_task", RUuid 3);
               ("created_at", RDateTime 10000); ("updated_at", RDateTime 20000)]
              eq_refl)
    as (model & k & r & Hk & Hd & Hrec & _).
  - left.
  - vm_compute. left.
  - by exists model, k, r.
Defined.

(** ** Running the monad *)

Lemma bind_run {DB A B} (m : M DB A) (k : A → M DB B) w :
  (m ≫= k) w =
  match m w with
  | (Ok a, w') => k a w'
  | (Raise e, w') => (Raise e, w')
  end.
Proof. reflexivity. Qed.

Lemma ret_run {DB A} (a : A) (w : World DB) :
  (mret a : M DB A) w = (Ok a, w).
Proof. reflexivity. Qed.

Lemma getitem_run {DB} item key (w : World DB) :
  getitem item key w =
  (match item !! key with Some v => Ok v | None => Raise (KeyError key) end, w).
Proof. unfold getitem. by destruct (item !! key). Qed.

Lemma with_db_same {DB} (w : World DB) : with_db (db w) w = w.
Proof. by destruct w. Qed.

Section preserves.
Context {DB : Type} (R : relation DB) `{!PreOrder R}.

Lemma preserves_ret {A} (a : A) : preserves R (mret a : M DB A).
Proof. intros w. reflexivity. Qed.

Lemma preserves_raise {A} e : preserves R (raise e : M DB A).
Proof. intros w. reflexivity. Qed.

Lemma preserves_getitem item key : preserves R (getitem item key : M DB json).
Proof. intros w. rewrite getitem_run. reflexivity. Qed.

Lemma preserves_bind {A B} (m : M DB A) (k : A → M DB B) :
  preserves R m → (∀ a, preserves R (k a)) → preserves R (m ≫= k).
Proof.
  intros Hm Hk w. rewrite bind_run. specialize (Hm w).
  destruct (m w) as [[a|e] w1]; simpl in *; [|done].
  etransitivity; [done|]. apply Hk.
Qed.

Lemma preserves_try_except {A} (m : M DB A) handler :
  preserves R m → (∀ e, preserves R (handler e)) →
  preserves R (try_except m handler).
Proof.
  intros Hm Hh w. unfold try_except. specialize (Hm w).
  destruct (m w) as [[a|e] w1]; simpl in *; [done|].
  etransitivity; [done|]. apply Hh.
Qed.

Lemma preserves_for_ {A E} (items : list A) (body : A → M DB (list E)) :
  (∀ item, preserves R (body item)) → preserves R (for_ items body).
Proof.
  intros Hbody. induction items as [|item items IH]; simpl.
  - apply preserves_ret.
  - apply preserves_bind; [done|]. intros e.
    apply preserves_bind; [done|]. intros es. apply preserves_ret.
Qed.

Lemma preserves_atomic {A} (m : M DB A) :
  preserves R m → preserves R (transaction_atomic m).
Proof.
  intros Hm w. unfold transaction_atomic. specialize (Hm w).
  destruct (m w) as [[a|e] w1]; simpl in *; [done|reflexivity].
Qed.
End preserves.

(** ** The operations of [App] on the tables *)

Lemma objects_set_objects model model' t d :
  App.objects model' (App.set_objects model t d)
  = if decide (model' = model) then t else App.objects model' d.
Proof. by destruct model, model'. Qed.

Lemma App_objects_get_nonnull model v :
  v ≠ JNull →
  App.objects_get model v =
  match to_uuid v with
  | None => raise (InvalidLookup (App.__name__ model) v)
  | Some u =>
      d ← get_db;
      match App.objects model d !! u with
      | Some r => mret (App.mkInstance model u r)
      | None => raise (DoesNotExist (App.__name__ model))
      end
  end.
Proof. by destruct v. Qed.

(** A lookup finds the row of the key the value converts to, or raises and
    changes nothing; it raises [DoesNotExist] only when no row has the
    key. *)
Lemma App_objects_get_run model v w :
  (∃ u r, to_uuid v = Some u ∧ App.objects model (db w) !! u = Some r
          ∧ App.objects_get model v w = (Ok (App.mkInstance model u r), w))
  ∨ (∃ e, App.objects_get model v w = (Raise e, w)
          ∧ (∀ u, to_uuid v = Some u →
                  App.objects model (db w) !! u = None
                  ∧ e = DoesNotExist (App.__name__ model))).
Proof.
  destruct (decide (v = JNull)) as [->|Hn].
  { right. eexists. split; [done|]. intros u [=]. }
  rewrite App_objects_get_nonnull by done.
  destruct (to_uuid v) as [u|] eqn:E.
  - rewrite bind_run. simpl.
    destruct (App.objects model (db w) !! u) as [r|] eqn:Er.
    + left. by exists u, r.
    + right. eexists. split; [done|]. by intros u' [= <-].
  - right. eexists. split; [done|]. intros u [=].
Qed.

Lemma App_objects_get_found model v u r w :
  to_uuid v = Some u → App.objects model (db w) !! u = Some r →
  App.objects_get model v w = (Ok (App.mkInstance model u r), w).
Proof.
  intros Hu Hr.
  destruct (App_objects_get_run model v w)
    as [(u' & r' & Hu' & Hr' & ->)|(e & _ & He)].
  - congruence.
  - destruct (He u Hu). congruence.
Qed.

Lemma App_objects_get_missing model v u w :
  to_uuid v = Some u → App.objects model (db w) !! u = None →
  App.objects_get model v w = (Raise (DoesNotExist (App.__name__ model)), w).
Proof.
  intros Hu Hr.
  destruct (App_objects_get_run model v w)
    as [(u' & r' & Hu' & Hr' & _)|(e & -> & He)].
  - congruence.
  - by destruct (He u Hu) as [_ ->].
Qed.

Lemma App_save_run obj w :
  App.save obj w =
  (Ok tt,
   mkWorld
     (App.set_objects (App.model_of obj)
        (<[App.pk obj := App.set_updated_at (time w (ticks w)) (App.fields obj)]>
           (App.objects (App.model_of obj) (db w))) (db w))
     (time w) (S (ticks w)) (uuid4 w) (draws w)).
Proof. reflexivity. Qed.

Lemma App_is_valid_run sc instance data partial w :
  App.is_valid sc instance data partial w
  = (Ok (App.run_validation sc instance data partial (db w)), w).
Proof. reflexivity. Qed.

Lemma UUIDField_pk_value taken data u :
  field_value (UUIDField_pk taken data) = Some u →
  ∃ v, data = Some v ∧ to_uuid v = Some u.
Proof.
  destruct data as [v|]; [|done]. intros Hv. exists v. split; [done|].
  destruct (decide (v = JNull)) as [->|Hn]; [done|].
  assert (UUIDField_pk taken (Some v)
          = match to_uuid v with
            | None => Invalid "invalid"
            | Some u => if taken u then Invalid "unique" else Valid u
            end) as Hfield by (by destruct v).
  rewrite Hfield in Hv. destruct (to_uuid v) as [u'|]; [|done].
  destruct (taken u'); [done|]. by injection Hv as <-.
Qed.

(** The key in the validated data is the one the [id] of the data converts
    to. *)
Lemma App_validated_id sc instance data partial d vd u :
  App.run_validation sc instance data partial d = inr vd →
  App.v_id vd = Some u →
  ∃ v, data !! "id" = Some v ∧ to_uuid v = Some u.
Proof.
  unfold App.run_validation.
  destruct (_ ++ _); [|done]. intros [= <-]. simpl.
  unfold UUIDField_pk. destruct (data !! "id") as [v|]; [|done].
  intros Hv. exists v. split; [done|].
  destruct (decide (v = JNull)) as [->|Hn]; [done|].
  assert (field_value
            (match to_uuid v with
             | Some u0 =>
                 if match App.objects (App.Meta_model sc) d !! u0 with
                    | Some _ =>
                        negb (bool_decide (App.pk <$> instance = Some u0))
                    | None => false
                    end
                 then Invalid "unique" else Valid u0
             | None => Invalid "invalid"
             end) = Some u) as Hv' by (by destruct v).
  clear Hv. destruct (to_uuid v) as [u0|]; [|done].
  repeat case_match; by simplify_eq/=.
Qed.

Lemma App_objects_create_run model data w :
  let k := default (uuid4 w (draws w)) (App.v_id data) in
  let draws' := match App.v_id data with
                | Some _ => draws w
                | None => S (draws w)
                end in
  let row := App.mkRow (default EmptyString (App.v_char data))
               (default None (App.v_fk data))
               (mkStamps (time w (ticks w)) (time w (S (ticks w))) None) in
  App.objects_create model data w =
  match App.objects model (db w) !! k with
  | Some _ =>
      (Raise (IntegrityError (App.__name__ model)),
       mkWorld (db w) (time w) (S (S (ticks w))) (uuid4 w) draws')
  | None =>
      (Ok (App.mkInstance model k row),
       mkWorld (App.set_objects model (<[k := row]> (App.objects model (db w)))
                  (db w))
         (time w) (S (S (ticks w))) (uuid4 w) draws')
  end.
Proof.
  unfold App.objects_create.
  destruct (App.v_id data) as [u|]; simpl;
    unfold mbind, M_bind, mret, M_ret, timezone_now, uuid_uuid4, get_db;
    simpl; by destruct (App.objects model (db w) !! _).
Qed.

(** Every step of a push is made of inserting and replacing writes. *)
Lemma create_without_fk_writes model items :
  preserves (rtc App_write) (App.create_without_fk model items).
Proof.
  apply preserves_for_; [apply _|]. intros item w.
  rewrite bind_run, App_is_valid_run.
  destruct (App.run_validation _ _ _ _ _) as [errs|data]; [reflexivity|].
  unfold App.serializer_save. rewrite bind_run, App_objects_create_run.
  simpl. destruct (App.objects _ _ !! _) eqn:E; simpl; [reflexivity|].
  apply rtc_once. by apply write_insert.
Qed.

(** An [except] clause of the views only builds a message: it reads
    [item['id']] and writes nothing. *)
Ltac handler_done :=
  simpl;
  try match goal with
      | |- context [match ?e with KeyError _ => _ | _ => _ end] => destruct e
      end;
  try case_bool_decide;
  rewrite ?bind_run, ?getitem_run;
  repeat case_match; simplify_eq/=; reflexivity.

Lemma update_foreign_keys_writes model items :
  preserves (rtc App_write) (App.update_foreign_keys model items).
Proof.
  apply preserves_for_; [apply _|]. intros item w.
  destruct (item !! App.fk_field model) as [ref|] eqn:Href; [|reflexivity].
  unfold try_except. rewrite bind_run, getitem_run.
  destruct (item !! "id") as [id|] eqn:Hid; [|handler_done].
  rewrite bind_run.
  destruct (App_objects_get_run model id w)
    as [(u & r & Hu & Hr & ->)|(e & -> & _)]; [|handler_done].
  rewrite bind_run, getitem_run, Href, bind_run.
  destruct (App_objects_get_run (App.fk_target model) ref w)
    as [(k & t & Hk & Ht & ->)|(e & -> & _)]; [|handler_done].
  rewrite bind_run, App_save_run. simpl.
  apply rtc_once. by eapply write_replace.
Qed.

Lemma apply_updated_writes items serializer_class fk_field :
  preserves (rtc App_write) (App._apply_updated items serializer_class fk_field).
Proof.
  apply preserves_for_; [apply _|]. intros item w.
  set (model := if bool_decide (fk_field = "lead_task")
                then App.Project else App.Task).
  unfold try_except. rewrite bind_run, getitem_run.
  destruct (item !! "id") as [id|] eqn:Hid; [|handler_done].
  rewrite bind_run.
  destruct (App_objects_get_run model id w)
    as [(u & r & Hu & Hr & ->)|(e & -> & _)]; [|handler_done].
  rewrite bind_run, App_is_valid_run.
  destruct (App.run_validation _ _ _ _ _) as [errs|data] eqn:Hvalid.
  { rewrite bind_run, getitem_run, Hid. reflexivity. }
  unfold App.serializer_save. rewrite !bind_run, App_save_run. simpl.
  assert (default u (App.v_id data) = u) as ->.
  { destruct (App.v_id data) as [u'|] eqn:Hu'; [|done]. simpl.
    destruct (App_validated_id _ _ _ _ _ _ _ Hvalid Hu') as (v & Hv & Hv').
    congruence. }
  apply rtc_once. eapply write_replace; [done| |].
  - by repeat case_match.
  - by repeat case_match.
Qed.

Lemma apply_deleted_writes ids model :
  preserves (rtc App_write) (App._apply_deleted ids model).
Proof.
  apply preserves_for_; [apply _|]. intros id w.
  unfold try_except. rewrite bind_run.
  destruct (App_objects_get_run model id w)
    as [(u & r & Hu & Hr & ->)|(e & -> & _)].
  - simpl. apply rtc_once. eapply write_replace; [done|done|]. simpl. eauto.
  - by case_bool_decide.
Qed.

Lemma apply_changes_writes projects_changes tasks_changes :
  preserves (rtc App_write) (App._apply_changes projects_changes tasks_changes).
Proof.
  unfold App._apply_changes.
  repeat (apply preserves_bind; [apply _| |intros ?]);
    auto using create_without_fk_writes, update_foreign_keys_writes,
      apply_updated_writes, apply_deleted_writes.
  apply preserves_ret. apply _.
Qed.

Lemma post_writes projects_changes tasks_changes :
  preserves (rtc App_write) (App.post projects_changes tasks_changes).
Proof.
  unfold App.post. apply preserves_bind; [apply _| |].
  - apply preserves_atomic; [apply _|]. apply apply_changes_writes.
  - intros [|]; apply preserves_ret; apply _.
Qed.

(** ** Deletion is terminal for projects and tasks *)

#[global] Instance tombstones_kept_preorder : PreOrder tombstones_kept.
Proof.
  split.
  - intros d model k row Hrow Hdel. eauto.
  - intros d1 d2 d3 H12 H23 model k row Hrow Hdel.
    destruct (H12 model k row Hrow Hdel) as (row2 & Hrow2 & Hdel2). eauto.
Qed.

#[global] Instance rows_kept_preorder : PreOrder rows_kept.
Proof.
  split.
  - by intros d model k.
  - intros d1 d2 d3 H12 H23 model k Hk. eauto.
Qed.

Lemma write_tombstones_kept d d' : App_write d d' → tombstones_kept d d'.
Proof.
  intros [model k row d0 Hfresh Hlive|model k row row' d0 Hrow Hcreated Hdel]
    model' k' r Hr Hd; rewrite objects_set_objects;
    destruct (decide (model' = model)) as [->|]; eauto;
    destruct (decide (k' = k)) as [->|];
    rewrite ?lookup_insert_eq, ?lookup_insert_ne by done; eauto.
  - congruence.
  - assert (r = row) as -> by congruence. eauto.
Qed.

Lemma write_rows_kept d d' : App_write d d' → rows_kept d d'.
Proof.
  intros [model k row d0 Hfresh Hlive|model k row row' d0 Hrow Hcreated Hdel]
    model' k' Hk; rewrite objects_set_objects;
    destruct (decide (model' = model)) as [->|]; eauto;
    destruct (decide (k' = k)) as [->|];
    rewrite ?lookup_insert_eq, ?lookup_insert_ne by done; eauto.
Qed.

Lemma writes_tombstones_kept d d' : rtc App_write d d' → tombstones_kept d d'.
Proof.
  induction 1 as [|d1 d2 d3 H12 _ IH]; [reflexivity|].
  etransitivity; [by apply write_tombstones_kept|done].
Qed.

Lemma writes_rows_kept d d' : rtc App_write d d' → rows_kept d d'.
Proof.
  induction 1 as [|d1 d2 d3 H12 _ IH]; [reflexivity|].
  etransitivity; [by apply write_rows_kept|done].
Qed.

(** What [UserProfileSyncView.post] does with [undelete_user], whatever
    the field validators. *)
Lemma post_undelete_user lib :
  let r := UserApp.post lib (mkChangeSet [] [undelete_user] [])
             (mkChangeSet [] [] []) (world_of one_deleted_user) in
  r.1 = Ok HTTP_200_OK
  ∧ UserApp.users (db r.2) !! 1
    = Some (UserApp.mkUser "" "ann" "" "" "" 7000 (mkStamps 10 1000 None)).
Proof. split; reflexivity. Qed.

(** C3 fails on the users: an update whose payload carries
    ["deleted_at": null] sets the [deleted_at] of a deleted user back to
    null. *)
Lemma user_update_resets_deleted_at :
  ¬ (∀ lib user_changes profile_changes w k u,
       UserApp.users (db w) !! k = Some u →
       is_Some (deleted_at (UserApp.user_stamps u)) →
       ∃ u', UserApp.users
               (db (UserApp.post lib user_changes profile_changes w).2) !! k
             = Some u'
             ∧ is_Some (deleted_at (UserApp.user_stamps u'))).
Proof.
  intros H.
  destruct (H permissive (mkChangeSet [] [undelete_user] [])
              (mkChangeSet [] [] []) (world_of one_deleted_user) 1 _
              eq_refl (mk_is_Some _ _ eq_refl)) as (u' & Hu' & Hdel).
  destruct (post_undelete_user permissive) as [_ Hrow]. simpl in Hrow.
  rewrite Hrow in Hu'. injection Hu' as <-. by destruct Hdel.
Qed.

Lemma post_keeps_tombstones projects_changes tasks_changes w :
  tombstones_kept (db w)
    (db (App.post projects_changes tasks_changes w).2).
Proof. apply writes_tombstones_kept, post_writes. Qed.

(** ** Updates do not look at [deleted_at] *)

Lemma for_one {DB A E} (item : A) (body : A → M DB (list E)) w :
  for_ [item] body w =
  match body item w with
  | (Ok e, w') => (Ok (e ++ []), w')
  | (Raise e, w') => (Raise e, w')
  end.
Proof. simpl. rewrite bind_run. by destruct (body item w) as [[e|e] w']. Qed.

Lemma apply_updated_model model :
  (if bool_decide (App.fk_field model = "lead_task")
   then App.Project else App.Task) = model.
Proof. by destruct model. Qed.

(** What [SyncView.post] does with [rename_project]. *)
Lemma post_rename_deleted_project :
  App.post (mkChangeSet [] [rename_project] []) (mkChangeSet [] [] [])
    (world_of one_deleted_project)
  = (Ok HTTP_200_OK,
     mkWorld
       (App.mkDB {[ 1 := App.mkRow "new" None (mkStamps 10 1000 (Some 30)) ]}
          ∅)
       sample_time 1 sample_uuid4 0).
Proof. reflexivity. Qed.

(** C2, as stated, fails: an update of a soft-deleted project is not
    rejected, and it changes the name. *)
Lemma update_of_deleted_project_is_applied :
  ¬ (∀ projects_changes tasks_changes w item id u row,
       item ∈ cs_updated projects_changes →
       item !! "id" = Some id → to_uuid id = Some u →
       App.projects (db w) !! u = Some row →
       is_Some (deleted_at (App.stamps row)) →
       ∃ errors w',
         App.post projects_changes tasks_changes w
         = (Ok (HTTP_400_BAD_REQUEST errors), w')
         ∧ NotExist "Project" id ∈ errors
         ∧ ∃ row', App.projects (db w') !! u = Some row'
                   ∧ App.char_value row' = App.char_value row
                   ∧ App.fk_id row' = App.fk_id row).
Proof.
  intros H.
  destruct (H (mkChangeSet [] [rename_project] []) (mkChangeSet [] [] [])
              (world_of one_deleted_project) rename_project id1 1 _
              ltac:(left) eq_refl eq_refl eq_refl (mk_is_Some _ _ eq_refl))
    as (errors & w' & Hpost & _).
  by rewrite post_rename_deleted_project in Hpost.
Qed.

(** What [_apply_updated] does with one item that has a key. *)
Lemma App_update_one model item id u w :
  item !! "id" = Some id →
  to_uuid id = Some u →
  let result := App._apply_updated [item] (App.serializer_of model)
                  (App.fk_field model) w in
  match App.objects model (db w) !! u with
  | None => result = (Ok [NotExist (App.__name__ model) id], w)
  | Some row =>
      match App.run_validation (App.serializer_of model)
              (Some (App.mkInstance model u row)) item true (db w) with
      | inl errors =>
          result = (Ok [UpdateFailed (App.__name__ model) id errors], w)
      | inr data =>
          result.1 = Ok []
          ∧ db result.2
            = App.set_objects model
                (<[u := App.mkRow
                          (default (App.char_value row) (App.v_char data))
                          (default (App.fk_id row) (App.v_fk data))
                          (mkStamps (created_at (App.stamps row))
                             (time w (ticks w))
                             (deleted_at (App.stamps row)))]>
                   (App.objects model (db w))) (db w)
      end
  end.
Proof.
  intros Hid Hu result. subst result. unfold App._apply_updated.
  rewrite for_one, apply_updated_model.
  unfold try_except. rewrite bind_run, getitem_run, Hid, bind_run.
  destruct (App.objects model (db w) !! u) as [row|] eqn:Hrow.
  - rewrite (App_objects_get_found _ _ _ _ _ Hu Hrow).
    rewrite bind_run, App_is_valid_run.
    destruct (App.run_validation _ _ _ _ _) as [errors|data] eqn:Hvalid.
    { by rewrite bind_run, getitem_run, Hid. }
    unfold App.serializer_save. rewrite !bind_run, App_save_run. simpl.
    split; [done|].
    assert (default u (App.v_id data) = u) as ->.
    { destruct (App.v_id data) as [u'|] eqn:Hu'; [|done]. simpl.
      destruct (App_validated_id _ _ _ _ _ _ _ Hvalid Hu') as (v & Hv & Hv').
      congruence. }
    rewrite bool_decide_eq_true_2 by by destruct model.
    do 2 f_equal. destruct row as [name fk [c upd del]].
    by destruct (App.v_char data), (App.v_fk data).
  - rewrite (App_objects_get_missing _ _ _ _ Hu Hrow).
    rewrite bool_decide_eq_true_2 by done.
    by rewrite bind_run, getitem_run, Hid.
Qed.


(** ** Creation and linkage of one item *)

Lemma Meta_model_serializer_of model :
  App.Meta_model (App.serializer_of model) = model.
Proof. by destruct model. Qed.

Lemma fk_field_not_id model : App.fk_field model ≠ "id".
Proof. by destruct model. Qed.

Lemma fk_field_not_char model : App.fk_field model ≠ App.char_field model.
Proof. by destruct model. Qed.

Lemma UUIDField_pk_fresh taken id u :
  to_uuid id = Some u → taken u = false →
  UUIDField_pk taken (Some id) = Valid u.
Proof. intros Hu Ht. destruct id; simpl in *; try done; by rewrite Hu, Ht. Qed.

(** The bare data of a created item with a fresh key and a valid name
    pass the serializer. *)
Lemma run_validation_bare model item id u s d :
  item !! "id" = Some id → to_uuid id = Some u →
  App.objects model d !! u = None →
  CharField (Some (App.char_max_length model)) true false false
    (item !! App.char_field model) = Valid s →
  App.run_validation (App.serializer_of model) None
    (delete (App.fk_field model) item) false d
  = inr (App.mkValidated (Some u) (Some s) None).
Proof.
  intros Hid Hu Hfresh Hchar. unfold App.run_validation.
  rewrite Meta_model_serializer_of.
  rewrite lookup_delete_eq.
  rewrite !lookup_delete_ne
    by first [apply fk_field_not_id | apply fk_field_not_char].
  rewrite Hid, Hchar.
  rewrite (UUIDField_pk_fresh _ id u) by (by rewrite ?Hfresh).
  reflexivity.
Qed.

Lemma create_one model item id u s w :
  item !! "id" = Some id → to_uuid id = Some u →
  App.objects model (db w) !! u = None →
  CharField (Some (App.char_max_length model)) true false false
    (item !! App.char_field model) = Valid s →
  App.create_without_fk model [item] w
  = (Ok [],
     mkWorld
       (App.set_objects model
          (<[u := App.mkRow s None
                    (mkStamps (time w (ticks w)) (time w (S (ticks w))) None)]>
             (App.objects model (db w))) (db w))
       (time w) (S (S (ticks w))) (uuid4 w) (draws w)).
Proof.
  intros Hid Hu Hfresh Hchar. unfold App.create_without_fk.
  rewrite for_one, bind_run, App_is_valid_run.
  rewrite (run_validation_bare _ _ _ _ _ _ Hid Hu Hfresh Hchar).
  unfold App.serializer_save.
  rewrite bind_run, App_objects_create_run. simpl.
  by rewrite Meta_model_serializer_of, Hfresh.
Qed.

Lemma link_one model item id u row ref k trow w :
  item !! "id" = Some id → to_uuid id = Some u →
  App.objects model (db w) !! u = Some row →
  item !! App.fk_field model = Some ref → to_uuid ref = Some k →
  App.objects (App.fk_target model) (db w) !! k = Some trow →
  App.update_foreign_keys model [item] w
  = (Ok [],
     mkWorld
       (App.set_objects model
          (<[u := App.set_updated_at (time w (ticks w))
                    (App.set_fk (Some k) row)]>
             (App.objects model (db w))) (db w))
       (time w) (S (ticks w)) (uuid4 w) (draws w)).
Proof.
  intros Hid Hu Hrow Href Hk Htrow. unfold App.update_foreign_keys.
  rewrite for_one, Href. unfold try_except.
  rewrite bind_run, getitem_run, Hid, bind_run.
  rewrite (App_objects_get_found _ _ _ _ _ Hu Hrow).
  rewrite bind_run, getitem_run, Href, bind_run.
  rewrite (App_objects_get_found _ _ _ _ _ Hk Htrow).
  by rewrite bind_run, App_save_run.
Qed.

Lemma link_null model item id u row w :
  item !! "id" = Some id → to_uuid id = Some u →
  App.objects model (db w) !! u = Some row →
  item !! App.fk_field model = Some JNull →
  App.update_foreign_keys model [item] w
  = (Ok [FailedToSet (App.fk_field model) (App.noun model) id
           (DoesNotExist (App.__name__ (App.fk_target model)))], w).
Proof.
  intros Hid Hu Hrow Href. unfold App.update_foreign_keys.
  rewrite for_one, Href. unfold try_except.
  rewrite bind_run, getitem_run, Hid, bind_run.
  rewrite (App_objects_get_found _ _ _ _ _ Hu Hrow).
  rewrite bind_run, getitem_run, Href, bind_run. simpl.
  by rewrite bind_run, getitem_run, Hid.
Qed.

(** ** Mutually referring records created by one push *)

(** One step of a run: the next operation is rewritten by its equation,
    whose side conditions are lookups in the tables built so far. *)
Ltac lookup_done :=
  simpl; rewrite ?lookup_insert_eq; first [eassumption | reflexivity].

Lemma create_none model (w : World App.DB) :
  App.create_without_fk model [] w = (Ok [], w).
Proof. reflexivity. Qed.

Lemma link_none model (w : World App.DB) :
  App.update_foreign_keys model [] w = (Ok [], w).
Proof. reflexivity. Qed.

Ltac run_step :=
  rewrite ?bind_run;
  first [ rewrite create_none | rewrite link_none
        | erewrite create_one; [| lookup_done ..]
        | erewrite link_one; [| lookup_done ..]
        | erewrite link_null; [| lookup_done ..] ];
  simpl.

Section mutual.
Context (p t : payload) (pid tid pref tref : json) (pu tu : UUID).
Context (name title : string) (w : World App.DB).
Context (Hpid : p !! "id" = Some pid) (Hpu : to_uuid pid = Some pu).
Context (Htid : t !! "id" = Some tid) (Htu : to_uuid tid = Some tu).
Context (Htref : p !! "lead_task" = Some tref)
        (Htref_u : to_uuid tref = Some tu).
Context (Hpref : t !! "project" = Some pref)
        (Hpref_u : to_uuid pref = Some pu).
Context (Hname : CharField (Some 100%nat) true false false (p !! "name")
                 = Valid name).
Context (Htitle : CharField (Some 200%nat) true false false (t !! "title")
                  = Valid title).
Context (Hpfresh : App.projects (db w) !! pu = None).
Context (Htfresh : App.tasks (db w) !! tu = None).

Lemma created_in_order_linked o1 o2 :
  ∃ w', apply_created_in_order o1 o2 [p] [t] w = (Ok [], w')
        ∧ linked (db w') pu tu name title.
Proof using All.
  unfold apply_created_in_order.
  destruct o1, o2; do 4 run_step;
    (eexists; split; [reflexivity|]);
    do 2 eexists; simpl; rewrite !lookup_insert_eq; done.
Qed.

Lemma post_linked :
  ∃ w', App.post (mkChangeSet [p] [] []) (mkChangeSet [t] [] []) w
        = (Ok HTTP_200_OK, w')
        ∧ linked (db w') pu tu name title.
Proof using All.
  unfold App.post, transaction_atomic, App._apply_changes. simpl.
  do 4 run_step.
  eexists; split; [reflexivity|].
  do 2 eexists; simpl; rewrite !lookup_insert_eq; done.
Qed.
End mutual.

(** C1.  A push that creates one project and one task, new to the tables
    and valid, the project naming the task in [lead_task] and the task
    naming the project in [project], answers with success, and afterwards
    the project refers to the task and the task to the project.  The same
    holds when the two collections are taken in the other order, in the
    creation steps or in the linkage steps: all that matters is that both
    records are created before either foreign key is set. *)
Theorem mutual_references_resolve (p t : payload) (pid tid pref tref : json)
    (pu tu : UUID) (name title : string) (w : World App.DB) :
  p !! "id" = Some pid → to_uuid pid = Some pu →
  t !! "id" = Some tid → to_uuid tid = Some tu →
  p !! "lead_task" = Some tref → to_uuid tref = Some tu →
  t !! "project" = Some pref → to_uuid pref = Some pu →
  CharField (Some 100%nat) true false false (p !! "name") = Valid name →
  CharField (Some 200%nat) true false false (t !! "title") = Valid title →
  App.projects (db w) !! pu = None →
  App.tasks (db w) !! tu = None →
  (∃ w', App.post (mkChangeSet [p] [] []) (mkChangeSet [t] [] []) w
         = (Ok HTTP_200_OK, w')
         ∧ linked (db w') pu tu name title)
  ∧ (∀ tasks_first_creation tasks_first_linkage,
       ∃ w', apply_created_in_order tasks_first_creation tasks_first_linkage
               [p] [t] w = (Ok [], w')
             ∧ linked (db w') pu tu name title).
Proof.
  intros. split.
  - by eapply post_linked.
  - intros o1 o2. by eapply created_in_order_linked.
Qed.

(** Setting a foreign key before the record it names is created fails:
    with the linkage of the projects run before the creation of the tasks,
    the same two payloads leave the project without its task and report an
    error. *)
Lemma linkage_before_creation_fails (p t : payload) (pid tid tref : json)
    (pu tu : UUID) (name title : string) (w : World App.DB) :
  p !! "id" = Some pid → to_uuid pid = Some pu →
  t !! "id" = Some tid → to_uuid tid = Some tu →
  p !! "lead_task" = Some tref → to_uuid tref = Some tu →
  CharField (Some 100%nat) true false false (p !! "name") = Valid name →
  App.projects (db w) !! pu = None →
  App.tasks (db w) !! tu = None →
  ∃ w', (e1 ← App.create_without_fk App.Project [p];
         e3 ← App.update_foreign_keys App.Project [p];
         mret (e1 ++ e3)) w
        = (Ok [FailedToSet "lead_task" "project" pid (DoesNotExist "Task")],
           w')
        ∧ ∃ prow, App.projects (db w') !! pu = Some prow
                  ∧ App.fk_id prow = None.
Proof.
  intros Hpid Hpu Htid Htu Htref Htref_u Hname Hpfresh Htfresh.
  run_step. rewrite bind_run. unfold App.update_foreign_keys.
  rewrite for_one. simpl. rewrite Htref. unfold try_except.
  rewrite bind_run, getitem_run, Hpid, bind_run.
  erewrite App_objects_get_found; [|done|lookup_done].
  rewrite bind_run, getitem_run, Htref, bind_run.
  erewrite App_objects_get_missing; [|done|lookup_done].
  simpl. rewrite bind_run, getitem_run, Hpid. simpl.
  eexists. split; [reflexivity|]. eexists. simpl.
  by rewrite lookup_insert_eq.
Qed.

(** [mutual_references_resolve] on the two sample payloads and the empty
    database. *)
Lemma mutual_references_resolve_witness :
  ∃ w', App.post (mkChangeSet [sample_project] [] [])
          (mkChangeSet [sample_task] [] []) (world_of no_rows)
        = (Ok HTTP_200_OK, w')
        ∧ linked (db w') 1 2 "y" "x".
Proof.
  apply (mutual_references_resolve sample_project sample_task
           id1 id2 id1 id2 1 2 "y" "x"
           (world_of no_rows));
    reflexivity.
Defined.

(** ** A null foreign key in a created item *)

(** C10.  A created project with a valid name, a new [id] and an explicit
    ["lead_task": null] is created, without a lead task; the linkage step
    then looks the null up among the tasks, finds nothing, and reports that
    the lead task could not be set; the push answers with that one error and
    the project stays.  The same holds for a task with ["project": null].
    The serializer field itself takes null as a valid value. *)
Theorem null_foreign_key_is_reported model item id u s w :
  item !! "id" = Some id → to_uuid id = Some u →
  item !! App.fk_field model = Some JNull →
  CharField (Some (App.char_max_length model)) true false false
    (item !! App.char_field model) = Valid s →
  App.objects model (db w) !! u = None →
  let none := mkChangeSet [] [] [] in
  let one := mkChangeSet [item] [] [] in
  let result := match model with
                | App.Project => App.post one none w
                | App.Task => App.post none one w
                end in
  result.1
  = Ok (HTTP_400_BAD_REQUEST
          [FailedToSet (App.fk_field model) (App.noun model) id
             (DoesNotExist (App.__name__ (App.fk_target model)))])
  ∧ App.objects model (db result.2) !! u
    = Some (App.mkRow s None
              (mkStamps (time w (ticks w)) (time w (S (ticks w))) None))
  ∧ ∀ find partial,
      PrimaryKeyRelatedField (K := UUID) find false true partial (Some JNull)
      = Valid None.
Proof.
  intros Hid Hu Hnull Hchar Hfresh none one result. subst result none one.
  split; [|split; [|done]].
  - destruct model; unfold App.post, transaction_atomic, App._apply_changes;
      simpl; repeat run_step; reflexivity.
  - destruct model; unfold App.post, transaction_atomic, App._apply_changes;
      simpl; repeat run_step; by rewrite lookup_insert_eq.
Qed.

(** [null_foreign_key_is_reported] on [project_with_null] and the empty
    database. *)
Lemma null_foreign_key_is_reported_witness :
  (App.post (mkChangeSet [project_with_null] [] []) (mkChangeSet [] [] [])
     (world_of no_rows)).1
  = Ok (HTTP_400_BAD_REQUEST
          [FailedToSet "lead_task" "project" id1 (DoesNotExist "Task")]).
Proof.
  apply (null_foreign_key_is_reported App.Project project_with_null id1
           1 "y" (world_of no_rows));
    reflexivity.
Defined.

(** ** An item without [id] *)

(** C7.  The except clauses of the linkage steps build their message from
    [item['id']].  For a created project that has no [id] (the key then
    defaults to a random UUID) and names a lead task, that lookup raises
    [KeyError] first in the [try] block and again in the clause itself, so
    the exception leaves [_apply_changes]: the push returns no list of
    errors, none of the updates and deletions of the batch is processed,
    and the transaction rolls the created project back. *)
Theorem linkage_without_id_aborts_push item ref name w
    project_updates project_deletions task_updates task_deletions :
  item !! "id" = None →
  item !! "lead_task" = Some ref →
  CharField (Some 100%nat) true false false (item !! "name") = Valid name →
  App.projects (db w) !! uuid4 w (draws w) = None →
  let result :=
    App.post (mkChangeSet [item] project_updates project_deletions)
      (mkChangeSet [] task_updates task_deletions) w in
  result.1 = Raise (KeyError "id") ∧ db result.2 = db w.
Proof.
  intros Hid Href Hname Hfresh result. subst result.
  assert (App.create_without_fk App.Project [item] w
          = (Ok [],
             mkWorld
               (App.set_objects App.Project
                  (<[uuid4 w (draws w) :=
                       App.mkRow name None
                         (mkStamps (time w (ticks w)) (time w (S (ticks w)))
                            None)]> (App.projects (db w))) (db w))
               (time w) (S (S (ticks w))) (uuid4 w) (S (draws w)))) as Hcreate.
  { unfold App.create_without_fk.
    rewrite for_one, bind_run, App_is_valid_run.
    assert (App.run_validation (App.serializer_of App.Project) None
              (delete (App.fk_field App.Project) item) false (db w)
            = inr (App.mkValidated None (Some name) None)) as ->.
    { unfold App.run_validation. simpl.
      rewrite lookup_delete_eq, !lookup_delete_ne by done.
      by rewrite Hid, Hname. }
    unfold App.serializer_save.
    rewrite bind_run, App_objects_create_run. simpl. by rewrite Hfresh. }
  assert (∀ w1, App.update_foreign_keys App.Project [item] w1
                = (Raise (KeyError "id"), w1)) as Hlink.
  { intros w1. unfold App.update_foreign_keys. rewrite for_one. simpl.
    rewrite Href. unfold try_except.
    rewrite bind_run, getitem_run, Hid. simpl.
    by rewrite bind_run, getitem_run, Hid. }
  unfold App.post, transaction_atomic, App._apply_changes.
  cbn [cs_created cs_updated cs_deleted].
  rewrite !bind_run, Hcreate. cbv beta iota.
  rewrite bind_run, create_none. cbv beta iota.
  by rewrite bind_run, Hlink.
Qed.

(** [linkage_without_id_aborts_push] on [project_without_id], in a batch
    that also deletes a task that does not exist. *)
Lemma linkage_without_id_aborts_push_witness :
  (App.post (mkChangeSet [project_without_id] [] [])
     (mkChangeSet [] [] [id9]) (world_of no_rows)).1
  = Raise (KeyError "id").
Proof.
  apply (linkage_without_id_aborts_push project_without_id id2 "y"
           (world_of no_rows) [] [] [] [id9]);
    reflexivity.
Defined.

(** The except clauses of [_apply_updated] have the same flaw: an update
    without [id] aborts the push. *)
Lemma update_without_id_aborts_push item w
    project_updates project_deletions task_updates task_deletions :
  item !! "id" = None →
  let result :=
    App.post (mkChangeSet [] (item :: project_updates) project_deletions)
      (mkChangeSet [] task_updates task_deletions) w in
  result = (Raise (KeyError "id"), w).
Proof.
  intros Hid result. subst result.
  assert (∀ w1, App._apply_updated (item :: project_updates)
                  App.ProjectSerializer "lead_task" w1
                = (Raise (KeyError "id"), w1)) as Hupdate.
  { intros w1. unfold App._apply_updated. cbn [for_]. unfold try_except.
    rewrite !bind_run, getitem_run, Hid. cbv beta iota.
    rewrite bool_decide_eq_false_2 by done.
    by rewrite bind_run, getitem_run, Hid. }
  unfold App.post, transaction_atomic, App._apply_changes.
  cbn [cs_created cs_updated cs_deleted].
  rewrite !bind_run, create_none. cbv beta iota.
  rewrite bind_run, create_none. cbv beta iota.
  rewrite bind_run, link_none. cbv beta iota.
  rewrite bind_run, link_none. cbv beta iota.
  by rewrite bind_run, Hupdate, with_db_same.
Qed.

(** [UserProfileSyncView._apply_updates] reads the key with
    [item.get('id')] in its except clause: there an update without [id] is
    one more error of the list. *)
Lemma user_update_without_id_is_reported lib item w :
  item !! "id" = None →
  UserApp._apply_updates lib [item] UserApp.UserSerializer UserApp.User w
  = (Ok [UnexpectedUpdating "User" JNull (KeyError "id")], w).
Proof.
  intros Hid. unfold UserApp._apply_updates.
  rewrite for_one. unfold try_except.
  by rewrite bind_run, getitem_run, Hid.
Qed.

(** ** A deleted id that matches no record *)

Lemma bind_Ok {DB A B} (m : M DB A) (k : A → M DB B) w b w' :
  (m ≫= k) w = (Ok b, w') →
  ∃ a w1, m w = (Ok a, w1) ∧ k a w1 = (Ok b, w').
Proof.
  rewrite bind_run. destruct (m w) as [[a|e] w1]; [|done]. eauto.
Qed.

Lemma for_app {DB A E} (l1 l2 : list A) (body : A → M DB (list E)) w :
  for_ (l1 ++ l2) body w =
  match for_ l1 body w with
  | (Ok e1, w1) =>
      match for_ l2 body w1 with
      | (Ok e2, w2) => (Ok (e1 ++ e2), w2)
      | (Raise e, w2) => (Raise e, w2)
      end
  | (Raise e, w1) => (Raise e, w1)
  end.
Proof.
  revert w. induction l1 as [|x l1 IH]; intros w; simpl.
  - by destruct (for_ l2 body w) as [[e2|e] w2].
  - rewrite !bind_run. destruct (body x w) as [[e|e] wa]; [|done].
    rewrite !bind_run, IH.
    destruct (for_ l1 body wa) as [[e1|e1] w1]; [|done]. simpl.
    destruct (for_ l2 body w1) as [[e2|e2] w2]; [|done]. simpl.
    by rewrite app_assoc.
Qed.

Lemma for_returns {DB A E} (items : list A) (body : A → M DB (list E)) :
  (∀ item w, ∃ e w', body item w = (Ok e, w')) →
  ∀ w, ∃ es w', for_ items body w = (Ok es, w').
Proof.
  intros Hbody. induction items as [|item items IH]; intros w; simpl.
  - by eauto.
  - rewrite bind_run. destruct (Hbody item w) as (e & wa & ->).
    rewrite bind_run. destruct (IH wa) as (es & w' & ->). by eauto.
Qed.

(** The deletion loop never raises. *)
Lemma apply_deleted_returns ids model w :
  ∃ errors w', App._apply_deleted ids model w = (Ok errors, w').
Proof.
  unfold App._apply_deleted. apply for_returns. clear. intros id w.
  unfold try_except. rewrite bind_run.
  destruct (App_objects_get_run model id w)
    as [(u & r & Hu & Hr & ->)|(e & -> & _)]; simpl.
  - by eauto.
  - case_bool_decide; by eauto.
Qed.

Lemma delete_missing_one model id w :
  (∀ u, to_uuid id = Some u → App.objects model (db w) !! u = None) →
  App._apply_deleted [id] model w = (Ok [missing_error model id], w).
Proof.
  intros Hmissing. unfold App._apply_deleted.
  rewrite for_one. unfold try_except. rewrite bind_run.
  unfold missing_error. destruct (decide (id = JNull)) as [->|Hn].
  { simpl. by rewrite bool_decide_eq_true_2. }
  rewrite App_objects_get_nonnull by done.
  rewrite (bool_decide_eq_false_2 (id = JNull)) by done.
  destruct (to_uuid id) as [u|] eqn:Hu.
  - rewrite bind_run. simpl. rewrite (Hmissing u eq_refl). simpl.
    by rewrite bool_decide_eq_true_2.
  - done.
Qed.

(** In the deletion loop, an id that matches no row adds its one error,
    where it stands in the list, and changes nothing else: the other ids
    are processed as they are without it. *)
Lemma delete_missing_among model ids1 id ids2 w e1 w1 e2 w2 :
  App._apply_deleted ids1 model w = (Ok e1, w1) →
  (∀ u, to_uuid id = Some u → App.objects model (db w1) !! u = None) →
  App._apply_deleted ids2 model w1 = (Ok e2, w2) →
  App._apply_deleted (ids1 ++ ids2) model w = (Ok (e1 ++ e2), w2)
  ∧ App._apply_deleted (ids1 ++ id :: ids2) model w
    = (Ok (e1 ++ missing_error model id :: e2), w2).
Proof.
  intros H1 Hmissing H2. unfold App._apply_deleted in *.
  rewrite !for_app, H1, H2. split; [done|].
  change (id :: ids2) with ([id] ++ ids2). rewrite for_app.
  pose proof (delete_missing_one model id w1 Hmissing) as Hone.
  unfold App._apply_deleted in Hone. by rewrite Hone, H2.
Qed.

Lemma for_app_Ok {DB A E} (l1 l2 : list A) (body : A → M DB (list E))
    w es w' :
  for_ (l1 ++ l2) body w = (Ok es, w') →
  ∃ e1 w1 e2, for_ l1 body w = (Ok e1, w1)
              ∧ for_ l2 body w1 = (Ok e2, w') ∧ es = e1 ++ e2.
Proof.
  rewrite for_app. destruct (for_ l1 body w) as [[e1|e] w1]; [|done].
  destruct (for_ l2 body w1) as [[e2|e] w2] eqn:E2; [|done].
  intros [= <- <-]. by exists e1, w1, e2.
Qed.

(** In a push that runs to its end, a deleted task id that matches no task
    adds its one error to the list and changes nothing else: the world
    left and the other errors are those of the push without that id. *)
Lemma push_delete_missing_task projects_changes task_items task_updates
    ids1 id ids2 w errors w' :
  App._apply_changes projects_changes
    (mkChangeSet task_items task_updates (ids1 ++ ids2)) w = (Ok errors, w') →
  (∀ k, to_uuid id = Some k → App.tasks (db w') !! k = None) →
  ∃ before after,
    errors = before ++ after
    ∧ App._apply_changes projects_changes
        (mkChangeSet task_items task_updates (ids1 ++ id :: ids2)) w
      = (Ok (before ++ missing_error App.Task id :: after), w').
Proof.
  unfold App._apply_changes. cbn [cs_created cs_updated cs_deleted].
  intros Hrun Hmissing.
  apply bind_Ok in Hrun as (e1 & w1 & H1 & Hrun).
  apply bind_Ok in Hrun as (e2 & w2 & H2 & Hrun).
  apply bind_Ok in Hrun as (e3 & w3 & H3 & Hrun).
  apply bind_Ok in Hrun as (e4 & w4 & H4 & Hrun).
  apply bind_Ok in Hrun as (e5 & w5 & H5 & Hrun).
  apply bind_Ok in Hrun as (e6 & w6 & H6 & Hrun).
  apply bind_Ok in Hrun as (e7 & w7 & H7 & Hrun).
  apply bind_Ok in Hrun as (e8 & w8 & H8 & Hrun).
  injection Hrun as <- <-.
  unfold App._apply_deleted in H8.
  apply for_app_Ok in H8 as (ea & wa & eb & Ha & Hb & ->).
  assert (∀ k, to_uuid id = Some k → App.objects App.Task (db wa) !! k = None)
    as Hmissing_a.
  { intros k Hk. specialize (Hmissing k Hk).
    destruct (App.objects App.Task (db wa) !! k) as [r|] eqn:Hr; [|done].
    pose proof (apply_deleted_writes ids2 App.Task wa) as Hwrites.
    unfold App._apply_deleted in Hwrites. rewrite Hb in Hwrites.
    apply writes_rows_kept in Hwrites.
    destruct (Hwrites App.Task k) as [r' Hr']; [by rewrite Hr|].
    simpl in Hr'. congruence. }
  destruct (delete_missing_among App.Task ids1 id ids2 w7 ea wa eb w8
              Ha Hmissing_a Hb) as [_ Hwith].
  exists (e1 ++ e2 ++ e3 ++ e4 ++ e5 ++ e6 ++ e7 ++ ea), eb.
  split; [by rewrite <- !app_assoc|].
  rewrite bind_run, H1. cbv beta iota.
  rewrite bind_run, H2. cbv beta iota.
  rewrite bind_run, H3. cbv beta iota.
  rewrite bind_run, H4. cbv beta iota.
  rewrite bind_run, H5. cbv beta iota.
  rewrite bind_run, H6. cbv beta iota.
  rewrite bind_run, H7. cbv beta iota.
  rewrite bind_run, Hwith. cbv beta iota.
  by rewrite ret_run, <- !app_assoc.
Qed.

(** The scenario of a push that deletes the id ["Z9"], which is no UUID,
    from the tasks. *)
Example delete_Z9 :
  App.post (mkChangeSet [] [] []) (mkChangeSet [] [] [JStr "Z9"])
    (world_of some_rows)
  = (Ok (HTTP_400_BAD_REQUEST
           [UnexpectedDeleting "Task" (JStr "Z9")
              (InvalidLookup "Task" (JStr "Z9"))]),
     world_of some_rows).
Proof. reflexivity. Qed.

(** ** What a push with errors has stored *)

(** After the creation loop, every item with a key is stored, or its
    creation error is in the list. *)
Lemma created_or_reported model items :
  ∀ w errors w',
    App.create_without_fk model items w = (Ok errors, w') →
    ∀ item id u,
      item ∈ items → item !! "id" = Some id → to_uuid id = Some u →
      is_Some (App.objects model (db w') !! u)
      ∨ ∃ field_errors,
          CreationFailed (App.__name__ model) id field_errors ∈ errors.
Proof.
  induction items as [|x items IH]; intros w errors w' Hrun item id u Hin Hid Hu.
  { by apply elem_of_nil in Hin. }
  unfold App.create_without_fk in Hrun. cbn [for_] in Hrun.
  apply bind_Ok in Hrun as (e & wa & Hx & Hrun).
  apply bind_Ok in Hrun as (es & wb & Hrest & Hrun).
  injection Hrun as <- <-.
  apply elem_of_cons in Hin as [->|Hin].
  - rewrite bind_run, App_is_valid_run in Hx.
    destruct (App.run_validation _ _ _ _ _) as [fe|data] eqn:Hvalid.
    { injection Hx as <- <-. right. exists fe. rewrite Hid. simpl. left. }
    left. unfold App.serializer_save in Hx.
    rewrite bind_run, App_objects_create_run in Hx.
    assert (App.v_id data = Some u) as Hdata.
    { revert Hvalid. unfold App.run_validation.
      rewrite lookup_delete_ne by apply fk_field_not_id. rewrite Hid.
      destruct (_ ++ _) eqn:E; [|done]. intros [= <-]. simpl.
      apply app_eq_nil in E as [E _]. revert E.
      unfold UUIDField_pk.
      destruct id; simpl in *; try done; rewrite Hu;
        by repeat case_match. }
    rewrite Hdata, Meta_model_serializer_of in Hx. simpl in Hx.
    destruct (App.objects model (db w) !! u) eqn:Hfresh; [done|].
    injection Hx as <- <-.
    pose proof (create_without_fk_writes model items
                  (mkWorld
                     (App.set_objects model
                        (<[u := App.mkRow (default EmptyString (App.v_char data))
                                  (default None (App.v_fk data))
                                  (mkStamps (time w (ticks w))
                                     (time w (S (ticks w))) None)]>
                           (App.objects model (db w))) (db w))
                     (time w) (S (S (ticks w))) (uuid4 w) (draws w)))
      as Hwrites.
    unfold App.create_without_fk in Hwrites. rewrite Hrest in Hwrites.
    apply writes_rows_kept in Hwrites. apply Hwrites. simpl.
    rewrite objects_set_objects, decide_True by done.
    by rewrite lookup_insert_eq.
  - destruct (IH wa es wb Hrest item id u Hin Hid Hu) as [?|(fe & Hfe)];
      [by left|].
    right. exists fe. apply elem_of_app. by right.
Qed.

Lemma run_writes {A} (m : M App.DB A) w r w' :
  preserves (rtc App_write) m → m w = (r, w') → rows_kept (db w) (db w').
Proof.
  intros Hm Hrun. specialize (Hm w). rewrite Hrun in Hm.
  by apply writes_rows_kept.
Qed.

Lemma pushed_items_stored_or_reported projects_changes tasks_changes
    w errors w' :
  App._apply_changes projects_changes tasks_changes w = (Ok errors, w') →
  ∀ model item id u,
    item ∈ cs_created (match model with
                       | App.Project => projects_changes
                       | App.Task => tasks_changes
                       end) →
    item !! "id" = Some id → to_uuid id = Some u →
    is_Some (App.objects model (db w') !! u)
    ∨ ∃ field_errors,
        CreationFailed (App.__name__ model) id field_errors ∈ errors.
Proof.
  unfold App._apply_changes. intros Hrun model item id u Hin Hid Hu.
  apply bind_Ok in Hrun as (e1 & w1 & H1 & Hrun).
  apply bind_Ok in Hrun as (e2 & w2 & H2 & Hrun).
  apply bind_Ok in Hrun as (e3 & w3 & H3 & Hrun).
  apply bind_Ok in Hrun as (e4 & w4 & H4 & Hrun).
  apply bind_Ok in Hrun as (e5 & w5 & H5 & Hrun).
  apply bind_Ok in Hrun as (e6 & w6 & H6 & Hrun).
  apply bind_Ok in Hrun as (e7 & w7 & H7 & Hrun).
  apply bind_Ok in Hrun as (e8 & w8 & H8 & Hrun).
  injection Hrun as <- <-.
  pose proof (run_writes _ _ _ _ (create_without_fk_writes _ _) H2) as K2.
  pose proof (run_writes _ _ _ _ (update_foreign_keys_writes _ _) H3) as K3.
  pose proof (run_writes _ _ _ _ (update_foreign_keys_writes _ _) H4) as K4.
  pose proof (run_writes _ _ _ _ (apply_updated_writes _ _ _) H5) as K5.
  pose proof (run_writes _ _ _ _ (apply_updated_writes _ _ _) H6) as K6.
  pose proof (run_writes _ _ _ _ (apply_deleted_writes _ _) H7) as K7.
  pose proof (run_writes _ _ _ _ (apply_deleted_writes _ _) H8) as K8.
  destruct model.
  - destruct (created_or_reported _ _ _ _ _ H1 item id u Hin Hid Hu)
      as [Hstored|(fe & Hfe)].
    + left. by apply K8, K7, K6, K5, K4, K3, K2.
    + right. exists fe. apply elem_of_app. by left.
  - destruct (created_or_reported _ _ _ _ _ H2 item id u Hin Hid Hu)
      as [Hstored|(fe & Hfe)].
    + left. by apply K8, K7, K6, K5, K4, K3.
    + right. exists fe. rewrite !elem_of_app. auto.
Qed.

(** C4.  A push answers with a list of errors exactly when its steps ran to
    the end and appended at least one error, and the world it leaves is then
    the one the steps produced: everything the other items wrote is
    committed, nothing is rolled back.  This holds for both views.  In
    particular, after a push of [SyncView] has answered with its errors,
    every created item that carries a key is stored, unless the list holds
    the creation error of that very item. *)
Theorem errors_do_not_roll_back :
  (∀ projects_changes tasks_changes w errors w',
     App.post projects_changes tasks_changes w
     = (Ok (HTTP_400_BAD_REQUEST errors), w')
     ↔ errors ≠ []
       ∧ App._apply_changes projects_changes tasks_changes w
         = (Ok errors, w'))
  ∧ (∀ lib user_changes profile_changes w errors w',
       UserApp.post lib user_changes profile_changes w
       = (Ok (HTTP_400_BAD_REQUEST errors), w')
       ↔ errors ≠ []
         ∧ UserApp._apply_changes lib user_changes profile_changes w
           = (Ok errors, w'))
  ∧ (∀ projects_changes tasks_changes w errors w',
       App.post projects_changes tasks_changes w
       = (Ok (HTTP_400_BAD_REQUEST errors), w') →
       ∀ model item id u,
         item ∈ cs_created (match model with
                            | App.Project => projects_changes
                            | App.Task => tasks_changes
                            end) →
         item !! "id" = Some id → to_uuid id = Some u →
         is_Some (App.objects model (db w') !! u)
         ∨ ∃ field_errors,
             CreationFailed (App.__name__ model) id field_errors ∈ errors).
Proof.
  assert (∀ pc tc w errors w',
            App.post pc tc w = (Ok (HTTP_400_BAD_REQUEST errors), w')
            ↔ errors ≠ [] ∧ App._apply_changes pc tc w = (Ok errors, w'))
    as Hpost.
  { intros pc tc w errors w'. unfold App.post, transaction_atomic.
    rewrite bind_run.
    destruct (App._apply_changes pc tc w) as [[[|e es]|e] w1]; simpl.
    - split; [done|]. by intros [? [= <- <-]].
    - split; [by intros [= <- <-]|]. by intros [_ [= <- <-]].
    - split; [done|]. by intros [_ ?]. }
  split; [done|]. split.
  - intros lib uc pc w errors w'. unfold UserApp.post, transaction_atomic.
    rewrite bind_run.
    destruct (UserApp._apply_changes lib uc pc w) as [[[|e es]|e] w1]; simpl.
    + split; [done|]. by intros [? [= <- <-]].
    + split; [by intros [= <- <-]|]. by intros [_ [= <- <-]].
    + split; [done|]. by intros [_ ?].
  - intros pc tc w errors w' [_ Hrun]%Hpost.
    by eapply pushed_items_stored_or_reported.
Qed.

(** [errors_do_not_roll_back] on a push that creates [sample_project]
    alone: the lead task does not exist, the push reports it, and the
    project is stored. *)
Lemma errors_do_not_roll_back_witness :
  ∃ w', App.post (mkChangeSet [sample_project] [] []) (mkChangeSet [] [] [])
          (world_of no_rows)
        = (Ok (HTTP_400_BAD_REQUEST
                 [FailedToSet "lead_task" "project" id1
                    (DoesNotExist "Task")]), w')
        ∧ is_Some (App.projects (db w') !! 1).
Proof.
  eexists. split.
  - apply (proj1 errors_do_not_roll_back). split; [done|]. reflexivity.
  - vm_compute. eauto.
Defined.

(** ** Deletion in the tables of [UserProfileSyncView] *)

#[global] Instance user_tombstones_kept_preorder :
  PreOrder user_tombstones_kept.
Proof.
  split.
  - intros d. split; eauto.
  - intros d1 d2 d3 [Hu12 Hp12] [Hu23 Hp23]. split.
    + intros k u Hk Hd. destruct (Hu12 k u Hk Hd) as (u2 & Hk2 & Hd2). eauto.
    + intros k p Hk Hd. destruct (Hp12 k p Hk Hd) as (p2 & Hk2 & Hd2). eauto.
Qed.

Lemma preserves_for_in {DB A E} (R : relation DB) `{!PreOrder R}
    (items : list A) (body : A → M DB (list E)) :
  (∀ item, item ∈ items → preserves R (body item)) →
  preserves R (for_ items body).
Proof.
  induction items as [|item items IH]; intros Hbody; simpl.
  - by apply preserves_ret.
  - apply preserves_bind; [done| |].
    + apply Hbody. left.
    + intros e. apply preserves_bind; [done| |].
      * apply IH. intros x Hx. apply Hbody. by right.
      * intros es. by apply preserves_ret.
Qed.

Lemma UserApp_objects_get_nonnull model v :
  v ≠ JNull →
  UserApp.objects_get model v =
  match model with
  | UserApp.User =>
      match to_int v with
      | None => raise (InvalidLookup (UserApp.__name__ model) v)
      | Some n =>
          d ← get_db;
          match UserApp.users d !! n with
          | Some u => mret (UserApp.UserObj n u)
          | None => raise (DoesNotExist (UserApp.__name__ model))
          end
      end
  | UserApp.StudentProfile =>
      match to_uuid v with
      | None => raise (InvalidLookup (UserApp.__name__ model) v)
      | Some k =>
          d ← get_db;
          match UserApp.student_profiles d !! k with
          | Some p => mret (UserApp.ProfileObj k p)
          | None => raise (DoesNotExist (UserApp.__name__ model))
          end
      end
  end.
Proof. by destruct v. Qed.

Lemma UserApp_objects_get_run model v w :
  (∃ obj, UserApp.objects_get model v w = (Ok obj, w) ∧ stored obj (db w)
          ∧ match model, obj with
            | UserApp.User, UserApp.UserObj _ _ => True
            | UserApp.StudentProfile, UserApp.ProfileObj k _ =>
                to_uuid v = Some k
            | _, _ => False
            end)
  ∨ (∃ e, UserApp.objects_get model v w = (Raise e, w)).
Proof.
  destruct (decide (v = JNull)) as [->|Hn]; [by right; eauto|].
  rewrite UserApp_objects_get_nonnull by done. destruct model.
  - destruct (to_int v) as [n|]; [|by right; eauto].
    rewrite bind_run. simpl.
    destruct (UserApp.users (db w) !! n) as [u|] eqn:Hu; [|by right; eauto].
    left. by exists (UserApp.UserObj n u).
  - destruct (to_uuid v) as [k|] eqn:Hv; [|by right; eauto].
    rewrite bind_run. simpl.
    destruct (UserApp.student_profiles (db w) !! k) as [p|] eqn:Hp;
      [|by right; eauto].
    left. by exists (UserApp.ProfileObj k p).
Qed.

(** Saving, in place of a stored row, an instance that has a [deleted_at]
    if the stored row had keeps the soft-deleted rows. *)
Lemma UserApp_save_kept obj0 obj w :
  stored obj0 (db w) → same_slot obj0 obj →
  (is_Some (deleted_at (UserApp.obj_stamps obj0)) →
   is_Some (deleted_at (UserApp.obj_stamps obj))) →
  user_tombstones_kept (db w) (db (UserApp.save obj w).2).
Proof.
  intros Hstored Hslot Hdel.
  destruct obj0 as [k0 u0|k0 p0], obj as [k u|k p]; try done;
    simpl in Hslot; subst k0; simpl in *; split; intros k' r Hk' Hd; eauto.
  - simpl. destruct (decide (k' = k)) as [->|].
    + rewrite lookup_insert_eq. assert (r = u0) as -> by congruence. eauto.
    + rewrite lookup_insert_ne by done. eauto.
  - simpl. destruct (decide (k' = k)) as [->|].
    + rewrite lookup_insert_eq. assert (r = p0) as -> by congruence. eauto.
    + rewrite lookup_insert_ne by done. eauto.
Qed.

Lemma insert_user_kept d k u :
  UserApp.users d !! k = None →
  user_tombstones_kept d
    (UserApp.mkDB (<[k := u]> (UserApp.users d)) k (UserApp.student_profiles d)).
Proof.
  intros Hfresh. split; simpl; [|by eauto].
  intros k' r Hk' Hd. rewrite lookup_insert_ne by congruence. eauto.
Qed.

Lemma insert_profile_kept d k p :
  UserApp.student_profiles d !! k = None →
  user_tombstones_kept d
    (UserApp.mkDB (UserApp.users d) (UserApp.user_id_seq d)
       (<[k := p]> (UserApp.student_profiles d))).
Proof.
  intros Hfresh. split; simpl; [by eauto|].
  intros k' r Hk' Hd. rewrite lookup_insert_ne by congruence. eauto.
Qed.

Lemma UserApp_objects_create_kept model data :
  preserves user_tombstones_kept (UserApp.objects_create model data).
Proof.
  intros w. unfold UserApp.objects_create. destruct model.
  - unfold mbind, M_bind, uuid_uuid4, timezone_now, get_db. simpl.
    destruct (bool_decide _) eqn:Hfresh; simpl; [reflexivity|].
    destruct (existsb _ _); simpl; [reflexivity|].
    apply insert_user_kept.
    apply bool_decide_eq_false in Hfresh.
    by apply eq_None_not_Some.
  - destruct (UserApp.v_id data) as [k|];
      unfold mbind, M_bind, mret, M_ret, uuid_uuid4, timezone_now, get_db;
      simpl; destruct (UserApp.v_user data); simpl; try reflexivity;
      (destruct (UserApp.student_profiles (db w) !! _) eqn:Hfresh; simpl;
       [reflexivity|by apply insert_profile_kept]).
Qed.

Lemma UserApp_is_valid_run lib sc instance data partial w :
  UserApp.is_valid lib sc instance data partial w
  = (Ok (UserApp.run_validation lib sc instance data partial (db w)), w).
Proof. reflexivity. Qed.

(** [DateTimeField] yields a null exactly for a null. *)
Lemma DateTimeField_null lib data :
  field_value (UserApp.DateTimeField lib data) = Some None
  ↔ data = Some JNull.
Proof.
  unfold UserApp.DateTimeField. split.
  - destruct data as [[| | |s|]|]; try done.
    by destruct (parse_datetime lib s).
  - by intros ->.
Qed.

(** The key in the validated data is the one the [id] of the data converts
    to, and the validated data have a null [deleted_at] exactly when the
    data have one. *)
Lemma UserApp_validated lib sc instance data partial d vd :
  UserApp.run_validation lib sc instance data partial d = inr vd →
  (∀ u, UserApp.v_id vd = Some u →
        ∃ v, data !! "id" = Some v ∧ to_uuid v = Some u)
  ∧ (UserApp.v_deleted_at vd = Some None
     ↔ data !! "deleted_at" = Some JNull).
Proof.
  unfold UserApp.run_validation. destruct sc.
  - destruct (_ ++ _); [|done]. intros [= <-]. simpl. split; [done|].
    apply DateTimeField_null.
  - destruct (_ ++ _); [|done]. intros [= <-]. simpl.
    split; [|apply DateTimeField_null].
    intros u Hv. by apply UUIDField_pk_value in Hv.
Qed.

Lemma UserApp_save_Ok obj w : (UserApp.save obj w).1 = Ok ().
Proof. by destruct obj. Qed.

Lemma UserApp_updates_kept lib items serializer_class model_class :
  (∀ item, item ∈ items → item !! "deleted_at" ≠ Some JNull) →
  preserves user_tombstones_kept
    (UserApp._apply_updates lib items serializer_class model_class).
Proof.
  intros Hitems. apply preserves_for_in; [apply _|]. intros item Hitem w.
  unfold try_except. rewrite bind_run, getitem_run.
  destruct (item !! "id") as [id|] eqn:Hid; [|reflexivity].
  rewrite bind_run.
  destruct (UserApp_objects_get_run model_class id w)
    as [(obj & -> & Hstored & Hkind)|(e & ->)]; [|reflexivity].
  rewrite bind_run, UserApp_is_valid_run.
  destruct (UserApp.run_validation _ _ _ _ _ _) as [errs|data] eqn:Hvalid.
  { rewrite bind_run, getitem_run, Hid. reflexivity. }
  destruct (UserApp_validated _ _ _ _ _ _ _ Hvalid) as [Hkey Hdel].
  assert (UserApp.v_deleted_at data ≠ Some None) as Hnull.
  { intros Hnull%Hdel. by apply (Hitems item Hitem). }
  clear Hdel.
  unfold UserApp.serializer_save. rewrite !bind_run.
  pose proof (UserApp_save_kept obj
                (UserApp.update serializer_class obj data) w Hstored) as Hsave.
  destruct (UserApp.save _ w) as [[[]|e] w1]; simpl in *; apply Hsave.
  all: destruct serializer_class, obj as [k u|k p]; simpl; try done;
    try (destruct (UserApp.v_deleted_at data) as [[t|]|]; simpl;
         by eauto).
  all: destruct model_class; try done;
    destruct (UserApp.v_id data) as [k'|] eqn:Hk'; [|done]; simpl;
    destruct (Hkey k' eq_refl) as (v & Hv & Hv'); congruence.
Qed.

Lemma UserApp_deletions_kept ids model_class :
  preserves user_tombstones_kept (UserApp._apply_deletions ids model_class).
Proof.
  apply preserves_for_; [apply _|]. intros id w.
  unfold try_except. rewrite bind_run.
  destruct (UserApp_objects_get_run model_class id w)
    as [(obj & -> & Hstored & Hkind)|(e & ->)]; [|reflexivity].
  rewrite bind_run. simpl.
  pose proof (UserApp_save_kept obj
                (UserApp.set_deleted_at (Some (time w (ticks w))) obj)
                (mkWorld (db w) (time w) (S (ticks w)) (uuid4 w) (draws w))
                Hstored) as Hsave.
  rewrite bind_run.
  destruct (UserApp.save _ _) as [[[]|e] w1]; simpl in *; apply Hsave;
    destruct obj; simpl; eauto.
Qed.

Lemma UserApp_apply_changes_kept lib user_changes profile_changes :
  (∀ item, item ∈ cs_updated user_changes ++ cs_updated profile_changes →
           item !! "deleted_at" ≠ Some JNull) →
  preserves user_tombstones_kept
    (UserApp._apply_changes lib user_changes profile_changes).
Proof.
  intros Hitems. unfold UserApp._apply_changes.
  apply preserves_bind; [apply _| |intros e1].
  { apply preserves_for_; [apply _|]. intros item w.
    rewrite bind_run, UserApp_is_valid_run.
    destruct (UserApp.run_validation _ _ _ _ _ _) as [errs|data];
      [reflexivity|].
    unfold UserApp.serializer_save. rewrite bind_run.
    pose proof (UserApp_objects_create_kept UserApp.User data w) as Hc.
    change (UserApp.Meta_model UserApp.UserSerializer) with UserApp.User.
    by destruct (UserApp.objects_create _ _ w) as [[obj|e] w1]. }
  apply preserves_bind; [apply _| |intros e2].
  { apply preserves_for_; [apply _|]. intros item w.
    rewrite bind_run, UserApp_is_valid_run.
    destruct (UserApp.run_validation _ _ _ _ _ _) as [errs|data];
      [reflexivity|].
    unfold UserApp.serializer_save. rewrite bind_run.
    pose proof (UserApp_objects_create_kept UserApp.StudentProfile data w)
      as Hc.
    change (UserApp.Meta_model UserApp.StudentProfileSerializer)
      with UserApp.StudentProfile.
    by destruct (UserApp.objects_create _ _ w) as [[obj|e] w1]. }
  apply preserves_bind; [apply _| |intros e3].
  { apply preserves_for_; [apply _|]. intros item w.
    destruct (item !! "user") as [ref|] eqn:Href; [|reflexivity].
    unfold try_except. rewrite bind_run, getitem_run.
    destruct (item !! "id") as [id|] eqn:Hid; [|handler_done].
    rewrite bind_run.
    destruct (UserApp_objects_get_run UserApp.StudentProfile id w)
      as [(profile & -> & Hstored & Hkind)|(e & ->)]; [|handler_done].
    rewrite bind_run, getitem_run, Href, bind_run.
    destruct (UserApp_objects_get_run UserApp.User ref w)
      as [(user & -> & _ & _)|(e & ->)]; [|handler_done].
    rewrite bind_run.
    pose proof (UserApp_save_kept profile
                  (UserApp.set_user (UserApp.pk user) profile) w Hstored)
      as Hsave.
    pose proof (UserApp_save_Ok
                  (UserApp.set_user (UserApp.pk user) profile) w) as Hok.
    destruct (UserApp.save _ w) as [[[]|e] w1]; [|done].
    simpl in *. apply Hsave; by destruct profile. }
  apply preserves_bind; [apply _| |intros e4].
  { apply UserApp_updates_kept. intros item Hitem. apply Hitems.
    apply elem_of_app. by left. }
  apply preserves_bind; [apply _| |intros e5].
  { apply UserApp_updates_kept. intros item Hitem. apply Hitems.
    apply elem_of_app. by right. }
  apply preserves_bind; [apply _| |intros e6].
  { apply UserApp_deletions_kept. }
  apply preserves_bind; [apply _| |intros e7].
  { apply UserApp_deletions_kept. }
  apply preserves_ret. apply _.
Qed.

Lemma UserApp_post_kept lib user_changes profile_changes :
  (∀ item, item ∈ cs_updated user_changes ++ cs_updated profile_changes →
           item !! "deleted_at" ≠ Some JNull) →
  preserves user_tombstones_kept
    (UserApp.post lib user_changes profile_changes).
Proof.
  intros Hitems. unfold UserApp.post. apply preserves_bind; [apply _| |].
  - apply preserves_atomic; [apply _|]. by apply UserApp_apply_changes_kept.
  - intros [|]; apply preserves_ret; apply _.
Qed.

(** What [_apply_updates] does with one update of a stored instance that
    passes the serializer. *)
Lemma UserApp_update_stored lib sc model item id obj data w :
  item !! "id" = Some id →
  UserApp.objects_get model id w = (Ok obj, w) →
  UserApp.run_validation lib sc (Some obj) item true (db w) = inr data →
  UserApp._apply_updates lib [item] sc model w
  = (Ok [], (UserApp.save (UserApp.update sc obj data) w).2).
Proof.
  intros Hid Hget Hvalid. unfold UserApp._apply_updates.
  rewrite for_one. unfold try_except.
  rewrite bind_run, getitem_run, Hid, bind_run, Hget.
  rewrite bind_run, UserApp_is_valid_run, Hvalid.
  unfold UserApp.serializer_save. rewrite !bind_run.
  pose proof (UserApp_save_Ok (UserApp.update sc obj data) w) as Hok.
  by destruct (UserApp.save _ w) as [[[]|e] w1].
Qed.

Lemma UserApp_get_profile id k p w :
  to_uuid id = Some k → UserApp.student_profiles (db w) !! k = Some p →
  UserApp.objects_get UserApp.StudentProfile id w
  = (Ok (UserApp.ProfileObj k p), w).
Proof.
  intros Hid Hp. rewrite UserApp_objects_get_nonnull by (by intros ->).
  rewrite Hid, bind_run. simpl. by rewrite Hp.
Qed.

Lemma UserApp_get_user_row id n u w :
  id ≠ JNull → to_int id = Some n → UserApp.users (db w) !! n = Some u →
  UserApp.objects_get UserApp.User id w = (Ok (UserApp.UserObj n u), w).
Proof.
  intros Hn Hid Hu. rewrite UserApp_objects_get_nonnull by done.
  rewrite Hid, bind_run. simpl. by rewrite Hu.
Qed.

(** C3.  For the projects and the tasks deletion is terminal: a row that
    has a [deleted_at] before a push, whatever the push creates, links,
    updates or deletes and however it ends, is still stored after it and
    still has a [deleted_at].  For the users and the student profiles the
    same holds of every push none of whose updates carries
    ["deleted_at": null].  An update that does carry it is where
    [UserProfileSyncView] departs from the claim: [UserSerializer] and
    [StudentProfileSerializer] list [deleted_at] among their fields, so the
    null passes [DateTimeField], is stored, and the soft-deleted user or
    student profile has no [deleted_at] afterwards. *)
Theorem deletion_is_terminal :
  (∀ projects_changes tasks_changes w,
     tombstones_kept (db w)
       (db (App.post projects_changes tasks_changes w).2))
  ∧ (∀ lib user_changes profile_changes w,
       (∀ item,
          item ∈ cs_updated user_changes ++ cs_updated profile_changes →
          item !! "deleted_at" ≠ Some JNull) →
       user_tombstones_kept (db w)
         (db (UserApp.post lib user_changes profile_changes w).2))
  ∧ (∀ lib item id n u data w,
       item !! "id" = Some id → id ≠ JNull → to_int id = Some n →
       UserApp.users (db w) !! n = Some u →
       item !! "deleted_at" = Some JNull →
       UserApp.run_validation lib UserApp.UserSerializer
         (Some (UserApp.UserObj n u)) item true (db w) = inr data →
       let result := UserApp._apply_updates lib [item] UserApp.UserSerializer
                       UserApp.User w in
       result.1 = Ok []
       ∧ ∃ u', UserApp.users (db result.2) !! n = Some u'
               ∧ deleted_at (UserApp.user_stamps u') = None)
  ∧ (∀ lib item id k p data w,
       item !! "id" = Some id → to_uuid id = Some k →
       UserApp.student_profiles (db w) !! k = Some p →
       item !! "deleted_at" = Some JNull →
       UserApp.run_validation lib UserApp.StudentProfileSerializer
         (Some (UserApp.ProfileObj k p)) item true (db w) = inr data →
       let result := UserApp._apply_updates lib [item]
                       UserApp.StudentProfileSerializer
                       UserApp.StudentProfile w in
       result.1 = Ok []
       ∧ ∃ p', UserApp.student_profiles (db result.2) !! k = Some p'
               ∧ deleted_at (UserApp.profile_stamps p') = None).
Proof.
  split; [apply post_keeps_tombstones|]. split; [|split].
  - intros lib uc pc w Hitems. by apply UserApp_post_kept.
  - intros lib item id n u data w Hid Hn Hint Hu Hnull Hvalid result.
    subst result.
    rewrite (UserApp_update_stored _ _ _ _ _ _ _ _ Hid
               (UserApp_get_user_row _ _ _ _ Hn Hint Hu) Hvalid).
    split; [done|].
    destruct (UserApp_validated _ _ _ _ _ _ _ Hvalid) as [_ Hdel].
    apply Hdel in Hnull. simpl. rewrite lookup_insert_eq, Hnull.
    by eexists.
  - intros lib item id k p data w Hid Hk Hp Hnull Hvalid result.
    subst result.
    rewrite (UserApp_update_stored _ _ _ _ _ _ _ _ Hid
               (UserApp_get_profile _ _ _ _ Hk Hp) Hvalid).
    split; [done|].
    destruct (UserApp_validated _ _ _ _ _ _ _ Hvalid) as [Hkey Hdel].
    apply Hdel in Hnull.
    assert (default k (UserApp.v_id data) = k) as Hsame.
    { destruct (UserApp.v_id data) as [k'|] eqn:Hk'; [|done]. simpl.
      destruct (Hkey k' eq_refl) as (v & Hv & Hv'). congruence. }
    simpl. rewrite Hsame, lookup_insert_eq, Hnull. by eexists.
Qed.

(** [deletion_is_terminal] on an update of the soft-deleted user of
    [one_deleted_user] that changes the first name only. *)
Lemma deletion_is_terminal_witness :
  ∃ u', UserApp.users
          (db (UserApp.post permissive (mkChangeSet [] [rename_user] [])
                 (mkChangeSet [] [] []) (world_of one_deleted_user)).2) !! 1
        = Some u'
        ∧ is_Some (deleted_at (UserApp.user_stamps u')).
Proof.
  refine (proj1 (proj1 (proj2 deletion_is_terminal) permissive
                   (mkChangeSet [] [rename_user] []) (mkChangeSet [] [] [])
                   (world_of one_deleted_user) _) 1 _ eq_refl
            (mk_is_Some _ _ eq_refl)).
  intros item Hitem. simpl in Hitem.
  apply list_elem_of_singleton in Hitem as ->. done.
Defined.

(** ** Updates of soft-deleted rows, in both views *)

Lemma UserApp_get_user id n u w :
  id ≠ JNull → to_int id = Some n → UserApp.users (db w) !! n = Some u →
  UserApp.objects_get UserApp.User id w = (Ok (UserApp.UserObj n u), w).
Proof.
  intros Hn Hid Hu. rewrite UserApp_objects_get_nonnull by done.
  rewrite Hid, bind_run. simpl. by rewrite Hu.
Qed.

(** What [_apply_updates] does with one update of a stored user. *)
Lemma UserApp_update_one lib item id n u data w :
  item !! "id" = Some id → id ≠ JNull → to_int id = Some n →
  UserApp.users (db w) !! n = Some u →
  UserApp.run_validation lib UserApp.UserSerializer
    (Some (UserApp.UserObj n u)) item true (db w) = inr data →
  let result := UserApp._apply_updates lib [item] UserApp.UserSerializer
                  UserApp.User w in
  result.1 = Ok []
  ∧ UserApp.users (db result.2) !! n
    = Some (UserApp.mkUser (UserApp.password u)
              (default (UserApp.username u) (UserApp.v_username data))
              (default (UserApp.first_name u) (UserApp.v_first_name data))
              (default (UserApp.last_name u) (UserApp.v_last_name data))
              (default (UserApp.email u) (UserApp.v_email data))
              (UserApp.uuid u)
              (mkStamps (created_at (UserApp.user_stamps u))
                 (time w (ticks w))
                 (default (deleted_at (UserApp.user_stamps u))
                    (UserApp.v_deleted_at data)))).
Proof.
  intros Hid Hn Hint Hu Hvalid result. subst result.
  unfold UserApp._apply_updates. rewrite for_one. unfold try_except.
  rewrite bind_run, getitem_run, Hid, bind_run.
  rewrite (UserApp_get_user _ _ _ _ Hn Hint Hu).
  rewrite bind_run, UserApp_is_valid_run, Hvalid.
  unfold UserApp.serializer_save. rewrite !bind_run. simpl.
  split; [done|]. by rewrite lookup_insert_eq.
Qed.

(** C2, amended.  An update is looked up by its [id] alone, and the
    [deleted_at] of the row found plays no part.  For a project or a task:
    if a row has the key, soft-deleted or not, and the payload passes the
    serializer, the validated fields are written, [updated_at] is refreshed,
    [created_at] and [deleted_at] stay, and no error is appended; if the
    payload fails the serializer, the row stays and the serializer's errors
    are reported; a does-not-exist error is reported exactly when no row has
    the key.  For a user likewise: the validated fields of an update of a
    stored user, soft-deleted or not, are written without an error, and
    [deleted_at] stays unless the payload itself carries one. *)
Theorem update_ignores_deleted_at :
  (∀ model item id u w,
     item !! "id" = Some id →
     to_uuid id = Some u →
     let result := App._apply_updated [item] (App.serializer_of model)
                     (App.fk_field model) w in
     match App.objects model (db w) !! u with
     | None => result = (Ok [NotExist (App.__name__ model) id], w)
     | Some row =>
         match App.run_validation (App.serializer_of model)
                 (Some (App.mkInstance model u row)) item true (db w) with
         | inl errors =>
             result = (Ok [UpdateFailed (App.__name__ model) id errors], w)
         | inr data =>
             result.1 = Ok []
             ∧ db result.2
               = App.set_objects model
                   (<[u := App.mkRow
                             (default (App.char_value row) (App.v_char data))
                             (default (App.fk_id row) (App.v_fk data))
                             (mkStamps (created_at (App.stamps row))
                                (time w (ticks w))
                                (deleted_at (App.stamps row)))]>
                      (App.objects model (db w))) (db w)
         end
     end)
  ∧ (∀ lib item id n u data w,
       item !! "id" = Some id → id ≠ JNull → to_int id = Some n →
       UserApp.users (db w) !! n = Some u →
       UserApp.run_validation lib UserApp.UserSerializer
         (Some (UserApp.UserObj n u)) item true (db w) = inr data →
       let result := UserApp._apply_updates lib [item] UserApp.UserSerializer
                       UserApp.User w in
       result.1 = Ok []
       ∧ UserApp.users (db result.2) !! n
         = Some (UserApp.mkUser (UserApp.password u)
                   (default (UserApp.username u) (UserApp.v_username data))
                   (default (UserApp.first_name u)
                      (UserApp.v_first_name data))
                   (default (UserApp.last_name u) (UserApp.v_last_name data))
                   (default (UserApp.email u) (UserApp.v_email data))
                   (UserApp.uuid u)
                   (mkStamps (created_at (UserApp.user_stamps u))
                      (time w (ticks w))
                      (default (deleted_at (UserApp.user_stamps u))
                         (UserApp.v_deleted_at data))))).
Proof.
  split.
  - apply App_update_one.
  - apply UserApp_update_one.
Qed.

(** [update_ignores_deleted_at] on the soft-deleted project of
    [one_deleted_project]. *)
Lemma update_ignores_deleted_at_witness :
  rename_project !! "id" = Some id1
  ∧ to_uuid id1 = Some 1
  ∧ (App._apply_updated [rename_project] App.ProjectSerializer "lead_task"
       (world_of one_deleted_project)).1 = Ok [].
Proof.
  pose proof (proj1 update_ignores_deleted_at App.Project rename_project id1 1
                (world_of one_deleted_project) eq_refl eq_refl) as H.
  split; [reflexivity|]. split; [reflexivity|].
  vm_compute in H. destruct H as [H _]. exact H.
Defined.

(** ** Pushes whose items all carry an [id] *)

Lemma for_returns_in {DB A E} (items : list A) (body : A → M DB (list E)) :
  (∀ item, item ∈ items → ∀ w, ∃ e w', body item w = (Ok e, w')) →
  ∀ w, ∃ es w', for_ items body w = (Ok es, w').
Proof.
  induction items as [|item items IH]; intros Hbody w; simpl.
  - by eauto.
  - rewrite bind_run.
    destruct (Hbody item ltac:(left) w) as (e & wa & ->).
    rewrite bind_run.
    destruct (IH (λ x Hx, Hbody x ltac:(by right)) wa) as (es & w' & ->).
    by eauto.
Qed.

Lemma create_without_fk_returns model items :
  (∀ item, item ∈ items → is_Some (item !! "id")) →
  ∀ w, ∃ es w', App.create_without_fk model items w = (Ok es, w').
Proof.
  intros Hids. apply for_returns_in. intros item [id Hid]%Hids w.
  rewrite bind_run, App_is_valid_run.
  destruct (App.run_validation _ _ _ _ _) as [errs|data] eqn:Hvalid;
    [by eauto|].
  unfold App.serializer_save. rewrite bind_run, App_objects_create_run.
  assert (∃ u, App.v_id data = Some u
               ∧ App.objects (App.Meta_model (App.serializer_of model)) (db w)
                 !! u = None) as (u & Hu & Hfresh).
  { revert Hvalid. unfold App.run_validation.
    rewrite lookup_delete_ne by apply fk_field_not_id. rewrite Hid.
    destruct (_ ++ _) eqn:E; [|done]. intros [= <-]. simpl.
    apply app_eq_nil in E as [E _]. revert E. unfold UUIDField_pk.
    destruct (decide (id = JNull)) as [->|Hn]; [done|].
    assert (∀ (A : Type) (a b : A),
              match id with JNull => a | _ => b end = b) as Hmatch
      by (by destruct id).
    rewrite !Hmatch. destruct (to_uuid id) as [u|]; [|done].
    destruct (App.objects _ _ !! u) eqn:Hrow; [done|].
    intros _. by exists u. }
  rewrite Hu. simpl. rewrite Hfresh. by eauto.
Qed.

Lemma update_foreign_keys_returns model items :
  (∀ item, item ∈ items → is_Some (item !! "id")) →
  ∀ w, ∃ es w', App.update_foreign_keys model items w = (Ok es, w').
Proof.
  intros Hids. apply for_returns_in. intros item [id Hid]%Hids w.
  destruct (item !! App.fk_field model) as [ref|] eqn:Href; [|by eauto].
  unfold try_except. rewrite bind_run, getitem_run, Hid, bind_run.
  destruct (App_objects_get_run model id w)
    as [(u & r & Hu & Hr & ->)|(e & -> & _)].
  - rewrite bind_run, getitem_run, Href, bind_run.
    destruct (App_objects_get_run (App.fk_target model) ref w)
      as [(k & t & Hk & Ht & ->)|(e & -> & _)].
    + rewrite bind_run, App_save_run. by eauto.
    + destruct e; rewrite bind_run, getitem_run, Hid; by eauto.
  - destruct e; rewrite bind_run, getitem_run, Hid; by eauto.
Qed.

Lemma apply_updated_returns items serializer_class fk_field :
  (∀ item, item ∈ items → is_Some (item !! "id")) →
  ∀ w, ∃ es w',
    App._apply_updated items serializer_class fk_field w = (Ok es, w').
Proof.
  intros Hids. apply for_returns_in. intros item [id Hid]%Hids w.
  unfold try_except. rewrite bind_run, getitem_run, Hid, bind_run.
  destruct (App_objects_get_run
              (if bool_decide (fk_field = "lead_task")
               then App.Project else App.Task) id w)
    as [(u & r & Hu & Hr & ->)|(e & -> & _)].
  - rewrite bind_run, App_is_valid_run.
    destruct (App.run_validation _ _ _ _ _) as [errs|data].
    + rewrite bind_run, getitem_run, Hid. by eauto.
    + unfold App.serializer_save. rewrite !bind_run, App_save_run. by eauto.
  - case_bool_decide; rewrite bind_run, getitem_run, Hid; by eauto.
Qed.

(** When every created and every updated item carries an [id], a push
    answers: no exception leaves it. *)
Lemma post_returns projects_changes tasks_changes w :
  (∀ item,
     item ∈ cs_created projects_changes ++ cs_created tasks_changes
            ++ cs_updated projects_changes ++ cs_updated tasks_changes →
     is_Some (item !! "id")) →
  ∃ response w',
    App.post projects_changes tasks_changes w = (Ok response, w').
Proof.
  intros Hids.
  assert (∃ errors w', App._apply_changes projects_changes tasks_changes w
                       = (Ok errors, w')) as (errors & w' & Hrun).
  { unfold App._apply_changes.
    destruct (create_without_fk_returns App.Project
                (cs_created projects_changes)
                ltac:(intros; apply Hids; rewrite !elem_of_app; auto) w)
      as (e1 & w1 & H1).
    destruct (create_without_fk_returns App.Task (cs_created tasks_changes)
                ltac:(intros; apply Hids; rewrite !elem_of_app; auto) w1)
      as (e2 & w2 & H2).
    destruct (update_foreign_keys_returns App.Project
                (cs_created projects_changes)
                ltac:(intros; apply Hids; rewrite !elem_of_app; auto) w2)
      as (e3 & w3 & H3).
    destruct (update_foreign_keys_returns App.Task (cs_created tasks_changes)
                ltac:(intros; apply Hids; rewrite !elem_of_app; auto) w3)
      as (e4 & w4 & H4).
    destruct (apply_updated_returns (cs_updated projects_changes)
                App.ProjectSerializer "lead_task"
                ltac:(intros; apply Hids; rewrite !elem_of_app; auto) w4)
      as (e5 & w5 & H5).
    destruct (apply_updated_returns (cs_updated tasks_changes)
                App.TaskSerializer "project"
                ltac:(intros; apply Hids; rewrite !elem_of_app; auto) w5)
      as (e6 & w6 & H6).
    destruct (apply_deleted_returns (cs_deleted projects_changes)
                App.Project w6) as (e7 & w7 & H7).
    destruct (apply_deleted_returns (cs_deleted tasks_changes) App.Task w7)
      as (e8 & w8 & H8).
    rewrite bind_run, H1. cbv beta iota.
    rewrite bind_run, H2. cbv beta iota.
    rewrite bind_run, H3. cbv beta iota.
    rewrite bind_run, H4. cbv beta iota.
    rewrite bind_run, H5. cbv beta iota.
    rewrite bind_run, H6. cbv beta iota.
    rewrite bind_run, H7. cbv beta iota.
    rewrite bind_run, H8. cbv beta iota.
    by eauto. }
  unfold App.post, transaction_atomic. rewrite bind_run, Hrun.
  destruct errors; by eauto.
Qed.
